(** * pwa_launcher.get_chromium: locating or provisioning a Chromium browser

    A shallow embedding of [find_chromium.py] (the platform probe and the
    system-browser detection) and of [get_chromium/__init__.py] (the
    three-tier resolver [get_chromium_install]), with the properties the
    specification states about them.

    Python effects are made explicit: every function of the source becomes a
    computation that yields the list of calls it made to the outside world
    (platform identity, environment, filesystem, installer, logger) together
    with either a returned value or a raised exception. *)

From Stdlib Require Import String Ascii List Bool Arith Lia.
Import ListNotations.
Open Scope string_scope.

(** ** Strings as Python uses them here *)

Module Str.

Definition nonempty (s : string) : bool :=
  match s with EmptyString => false | String _ _ => true end.

Definition backslash : ascii := "\"%char.
Definition slash : ascii := "/"%char.
Definition colon : ascii := ":"%char.

Definition of_char (c : ascii) : string := String c EmptyString.

Fixpoint replace_char (a b : ascii) (s : string) : string :=
  match s with
  | EmptyString => EmptyString
  | String c r => String (if Ascii.eqb c a then b else c) (replace_char a b r)
  end.

Definition lower_char (c : ascii) : ascii :=
  let n := nat_of_ascii c in
  if ((65 <=? n) && (n <=? 90))%nat then ascii_of_nat (n + 32) else c.

Fixpoint map_chars (f : ascii -> ascii) (s : string) : string :=
  match s with
  | EmptyString => EmptyString
  | String c r => String (f c) (map_chars f r)
  end.

Definition lower := map_chars lower_char.

(** [s[i:j]] for [0 <= i <= j]. *)
Definition slice (i j : nat) (s : string) : string := substring i (j - i) s.

(** [s[i:]]. *)
Definition from (i : nat) (s : string) : string := substring i (String.length s - i) s.

(** [s.find(sep, start)], [None] standing for -1. *)
Fixpoint find_from (sep : ascii) (start : nat) (pos : nat) (s : string) : option nat :=
  match s with
  | EmptyString => None
  | String c r =>
      if (start <=? pos)%nat && Ascii.eqb c sep then Some pos
      else find_from sep start (S pos) r
  end.

(** [s.split(sep)] for a one-character separator. *)
Fixpoint split_acc (sep : ascii) (cur : string) (s : string) : list string :=
  match s with
  | EmptyString => [cur]
  | String c r =>
      if Ascii.eqb c sep then cur :: split_acc sep EmptyString r
      else split_acc sep (cur ++ of_char c) r
  end.

Definition split (sep : ascii) (s : string) : list string := split_acc sep EmptyString s.

Definition starts_with_char (c : ascii) (s : string) : bool :=
  match s with String d _ => Ascii.eqb c d | EmptyString => false end.

(** [s.lstrip(c)] *)
Fixpoint lstrip (c : ascii) (s : string) : string :=
  match s with
  | EmptyString => EmptyString
  | String d r => if Ascii.eqb c d then lstrip c r else s
  end.

(** [c in s] *)
Fixpoint contains (c : ascii) (s : string) : bool :=
  match s with
  | EmptyString => false
  | String d r => Ascii.eqb c d || contains c r
  end.

(** [s.startswith(pre)] *)
Definition startswith (pre s : string) : bool := String.prefix pre s.

Fixpoint join (sep : string) (l : list string) : string :=
  match l with
  | [] => EmptyString
  | [x] => x
  | x :: r => x ++ sep ++ join sep r
  end.

End Str.

(** ** pathlib paths

    A [Path] is kept in parsed form, as pathlib does: a drive, a root and
    the remaining components.  Which of [PosixPath] and [WindowsPath] the
    constructor [Path(...)] builds is fixed by the host.  The functions
    follow pathlib.py of CPython 3.11, where a path is parsed when it is
    built and [/] joins two parsed paths. *)

Inductive Flavour := Posix | Windows.

Record Path := mkPath {
  flav : Flavour;
  drive : string;
  root : string;
  tail : list string
}.

Module Pathlib.

Definition sep (fl : Flavour) : ascii :=
  match fl with Posix => Str.slash | Windows => Str.backslash end.

(** [_PosixFlavour.splitroot] *)
Definition splitroot_posix (part : string) : string * string * string :=
  if Str.starts_with_char Str.slash part then
    let stripped_part := Str.lstrip Str.slash part in
    if (String.length part - String.length stripped_part =? 2)%nat
    then ("", "//", stripped_part)
    else ("", "/", stripped_part)
  else ("", "", part).

(** The letters [_WindowsFlavour.drive_letters] holds; [first] is [part[0:1]]. *)
Definition drive_letter (first : string) : bool :=
  match first with
  | String c EmptyString =>
      let n := nat_of_ascii c in
      (((65 <=? n) && (n <=? 90)) || ((97 <=? n) && (n <=? 122)))%nat
  | _ => false
  end.

(** [_WindowsFlavour._split_extended_path] *)
Definition split_extended_path (s : string) : string * string :=
  if Str.startswith "\\?\" s then
    let prefix := Str.slice 0 4 s in
    let s := Str.from 4 s in
    if Str.startswith "UNC\" s then (prefix ++ Str.slice 0 3 s, "\" ++ Str.from 3 s)
    else (prefix, s)
  else ("", s).

(** [_WindowsFlavour.splitroot], on a string whose [/] were already turned
    into [\]. *)
Definition splitroot_nt (part0 : string) : string * string * string :=
  let '(prefix, part) :=
    if String.eqb (Str.slice 1 2 part0) "\" && String.eqb (Str.slice 0 1 part0) "\"
    then split_extended_path part0
    else ("", part0) in
  let first := Str.slice 0 1 part in
  let second := Str.slice 1 2 part in
  let third := Str.slice 2 3 part in
  let otherwise :=
    let '(drv, part, first) :=
      if String.eqb second ":" && drive_letter first
      then (Str.slice 0 2 part, Str.from 2 part, third)
      else ("", part, first) in
    if String.eqb first "\"
    then (prefix ++ drv, first, Str.lstrip Str.backslash part)
    else (prefix ++ drv, "", part) in
  if String.eqb second "\" && String.eqb first "\" && negb (String.eqb third "\") then
    (* a UNC path *)
    match Str.find_from Str.backslash 2 0 part with
    | None => otherwise
    | Some index =>
        let found2 := Str.find_from Str.backslash (index + 1) 0 part in
        if match found2 with Some i => (i =? index + 1)%nat | None => false end
        then otherwise
        else
          let index2 := match found2 with Some i => i | None => String.length part end in
          if Str.nonempty prefix
          then (prefix ++ Str.slice 1 index2 part, "\", Str.from (index2 + 1) part)
          else (Str.slice 0 index2 part, "\", Str.from (index2 + 1) part)
    end
  else otherwise.

(** The components [parse_parts] keeps of what follows the root. *)
Definition components (fl : Flavour) (rel : string) : list string :=
  if Str.contains (sep fl) rel then
    filter (fun x => Str.nonempty x && negb (String.eqb x ".")) (Str.split (sep fl) rel)
  else if Str.nonempty rel && negb (String.eqb rel ".") then [rel] else [].

(** [Path(s)]: [parse_parts] on the one string [s]. *)
Definition parse (fl : Flavour) (s : string) : Path :=
  if negb (Str.nonempty s) then mkPath fl "" "" []
  else
    match fl with
    | Posix =>
        let '(drv, rt, rel) := splitroot_posix s in
        mkPath Posix drv rt (components Posix rel)
    | Windows =>
        let '(drv, rt, rel) := splitroot_nt (Str.replace_char Str.slash Str.backslash s) in
        mkPath Windows drv rt (components Windows rel)
    end.

Definition casefold (fl : Flavour) (s : string) : string :=
  match fl with Posix => s | Windows => Str.lower s end.

(** [p / seg], that is [_make_child] with [join_parsed_parts]: the segment
    is parsed and combined with [p]; an anchored segment replaces (part of)
    [p], any other one is appended. *)
Definition joinpath (p : Path) (seg : string) : Path :=
  let q := parse (flav p) seg in
  if Str.nonempty (root q) then
    if negb (Str.nonempty (drive q)) && Str.nonempty (drive p)
    then mkPath (flav p) (drive p) (root q) (tail q)
    else q
  else if Str.nonempty (drive q) then
    if String.eqb (casefold (flav p) (drive q)) (casefold (flav p) (drive p))
    then mkPath (flav p) (drive p) (root p) (tail p ++ tail q)
    else q
  else mkPath (flav p) (drive p) (root p) (tail p ++ tail q).


(** [str(p)] *)
Definition str (p : Path) : string :=
  let body := Str.join (Str.of_char (sep (flav p))) (tail p) in
  let s := drive p ++ root p ++ body in
  if Str.nonempty s then s else ".".

(** [p.name] *)
Definition name (p : Path) : string := last (tail p) "".

End Pathlib.

Notation "p // s" := (Pathlib.joinpath p s) (at level 40, left associativity).

(** ** Exceptions

    A Python exception object: its class, its message and the exception it
    was raised [from] (its [__cause__]).  What the source catches with
    [except Exception] is any such object; signals outside the [Exception]
    hierarchy ([KeyboardInterrupt], [SystemExit]) are not part of the model. *)

#[warnings="-register-all"] Inductive PyException :=
| Exc (cls : string) (msg : string) (cause : option PyException).

Definition exc_class (e : PyException) : string := let '(Exc c _ _) := e in c.
Definition exc_message (e : PyException) : string := let '(Exc _ m _) := e in m.
Definition exc_cause (e : PyException) : option PyException := let '(Exc _ _ c) := e in c.

Fixpoint exc_depth (e : PyException) : nat :=
  match e with
  | Exc _ _ None => 1
  | Exc _ _ (Some c) => S (exc_depth c)
  end.

(** [class ChromiumNotFoundError(Exception)]; [cause] is the [from] clause. *)
Definition ChromiumNotFoundError (msg : string) (cause : option PyException) : PyException :=
  Exc "ChromiumNotFoundError" msg cause.

(** ** The host

    Everything the source reads from its surroundings.  The filesystem is
    given by what each path resolves to once symbolic links are followed.
    On a host every probe call answers; the machine where [exists()],
    [is_file()] or [Path.home()] raise is the world of module [Fallible]
    below, which runs the same code. *)

Inductive Node :=
| Absent          (* nothing at this path *)
| RegularFile     (* a regular file, possibly reached through links *)
| Directory
| BrokenSymlink   (* a link whose target does not exist *)
| Special.        (* device, socket, fifo *)

Inductive InstallResult :=
| Installed (p : Path)
| InstallFailed (e : PyException).

Record Host := mkHost {
  (** the Path class of the running interpreter *)
  os_flavour : Flavour;
  (** [platform.system()] *)
  system_name : string;
  (** [os.environ] *)
  environ : string -> option string;
  (** the string [Path.home()] is built from *)
  home_dir : string;
  (** the filesystem *)
  node_at : Path -> Node;
  (** Modelled from the spec: [install_chromium.py] is not part of the
      sources at hand; its [find_existing_chromium] is the cache lookup of
      the specification, from an optional directory to an optional path. *)
  lookup_cached : option Path -> option Path;
  (** Modelled from the spec: the [install_chromium] function of the same
      missing module, the install operation of the specification: it yields
      a path or raises an error. *)
  installer : option Path -> bool -> bool -> InstallResult
}.

Definition node_exists (n : Node) : bool :=
  match n with
  | Absent | BrokenSymlink => false
  | RegularFile | Directory | Special => true
  end.

Definition node_is_file (n : Node) : bool :=
  match n with
  | RegularFile => true
  | _ => false
  end.

(** ** Effects *)

Inductive LogLevel := DEBUG | INFO | WARNING | ERROR.

Inductive Event :=
| EvSystem                                   (* platform.system() *)
| EvEnviron (var : string)                   (* os.environ.get(var, ...) *)
| EvHome                                     (* Path.home() *)
| EvExists (p : Path)                        (* p.exists() *)
| EvIsFile (p : Path)                        (* p.is_file() *)
| EvFindExisting (install_dir : option Path) (* find_existing_chromium(...) *)
| EvInstall (install_dir : option Path) (clean_existing force_reinstall : bool)
| EvLog (lvl : LogLevel) (fmt : string).     (* logger.<lvl>(fmt, ...) *)

Definition is_probe_event (e : Event) : bool :=
  match e with
  | EvSystem | EvEnviron _ | EvHome | EvExists _ | EvIsFile _ => true
  | _ => false
  end.

Definition is_filesystem_event (e : Event) : bool :=
  match e with
  | EvExists _ | EvIsFile _ => true
  | _ => false
  end.

Definition is_lookup_event (e : Event) : bool :=
  match e with EvFindExisting _ => true | _ => false end.

Definition is_install_event (e : Event) : bool :=
  match e with EvInstall _ _ _ => true | _ => false end.

Definition is_installer_event (e : Event) : bool :=
  is_lookup_event e || is_install_event e.

Definition count (f : Event -> bool) (t : list Event) : nat := List.length (filter f t).

Inductive Outcome (A : Type) :=
| Returned (a : A)
| Raised (e : PyException).
Arguments Returned {A} a.
Arguments Raised {A} e.

(** A run: the calls made, in order, and how the run ended. *)
Definition Run (A : Type) : Type := list Event * Outcome A.

Definition trace {A} (r : Run A) : list Event := fst r.
Definition outcome {A} (r : Run A) : Outcome A := snd r.

Definition ret {A} (a : A) : Run A := ([], Returned a).
Definition raise {A} (e : PyException) : Run A := ([], Raised e).
Definition emit (e : Event) : Run unit := ([e], Returned tt).

Definition bind {A B} (m : Run A) (k : A -> Run B) : Run B :=
  match m with
  | (t, Returned a) => let '(t', o) := k a in ((t ++ t')%list, o)
  | (t, Raised e) => (t, Raised e)
  end.

(** [try: body  except Exception as e: handler e] *)
Definition try_except {A} (body : Run A) (handler : PyException -> Run A) : Run A :=
  match body with
  | (t, Returned a) => (t, Returned a)
  | (t, Raised e) => let '(t', o) := handler e in ((t ++ t')%list, o)
  end.

Notation "x <- m ;; k" := (bind m (fun x => k))
  (at level 61, m at next level, right associativity).
Notation "m ;;; k" := (bind m (fun _ => k))
  (at level 61, right associativity).

(** ** find_chromium.py *)

Section Probe.

Variable h : Host.

Definition platform_system : Run string :=
  emit EvSystem ;;; ret (system_name h).

(** The value of [os.environ.get(var, default)]. *)
Definition environ_value (var default : string) : string :=
  match environ h var with
  | Some v => v
  | None => default
  end.

Definition environ_get (var default : string) : Run string :=
  emit (EvEnviron var) ;;; ret (environ_value var default).

(** [Path(s)] *)
Definition Path_ (s : string) : Path := Pathlib.parse (os_flavour h) s.

(** [Path.home()] *)
Definition Path_home : Run Path :=
  emit EvHome ;;; ret (Path_ (home_dir h)).

Definition path_exists (p : Path) : Run bool :=
  emit (EvExists p) ;;; ret (node_exists (node_at h p)).

Definition path_is_file (p : Path) : Run bool :=
  emit (EvIsFile p) ;;; ret (node_is_file (node_at h p)).

Definition log (lvl : LogLevel) (fmt : string) : Run unit := emit (EvLog lvl fmt).

Definition get_chrome_paths : Run (list Path) :=
  system <- platform_system ;;
  if system =? "Windows" then
    program_files <- environ_get "PROGRAMFILES" "C:\Program Files" ;;
    program_files_x86 <- environ_get "PROGRAMFILES(X86)" "C:\Program Files (x86)" ;;
    local_appdata <- environ_get "LOCALAPPDATA" "" ;;
    ret [ Path_ program_files // "Google" // "Chrome" // "Application" // "chrome.exe";
          Path_ program_files_x86 // "Google" // "Chrome" // "Application" // "chrome.exe";
          Path_ local_appdata // "Google" // "Chrome" // "Application" // "chrome.exe" ]
  else if system =? "Darwin" then
    home <- Path_home ;;
    ret [ Path_ "/Applications/Google Chrome.app/Contents/MacOS/Google Chrome";
          home // "Applications" // "Google Chrome.app" // "Contents" // "MacOS"
               // "Google Chrome" ]
  else if system =? "Linux" then
    ret [ Path_ "/usr/bin/google-chrome";
          Path_ "/usr/bin/google-chrome-stable";
          Path_ "/usr/bin/chrome";
          Path_ "/usr/local/bin/google-chrome";
          Path_ "/usr/local/bin/chrome";
          Path_ "/opt/google/chrome/chrome";
          Path_ "/snap/bin/chromium" ]
  else ret [].

Definition get_edge_paths : Run (list Path) :=
  system <- platform_system ;;
  if system =? "Windows" then
    program_files <- environ_get "PROGRAMFILES" "C:\Program Files" ;;
    program_files_x86 <- environ_get "PROGRAMFILES(X86)" "C:\Program Files (x86)" ;;
    ret [ Path_ program_files // "Microsoft" // "Edge" // "Application" // "msedge.exe";
          Path_ program_files_x86 // "Microsoft" // "Edge" // "Application" // "msedge.exe" ]
  else if system =? "Darwin" then
    home <- Path_home ;;
    ret [ Path_ "/Applications/Microsoft Edge.app/Contents/MacOS/Microsoft Edge";
          home // "Applications" // "Microsoft Edge.app" // "Contents" // "MacOS"
               // "Microsoft Edge" ]
  else if system =? "Linux" then
    ret [ Path_ "/usr/bin/microsoft-edge";
          Path_ "/usr/bin/microsoft-edge-stable";
          Path_ "/usr/bin/microsoft-edge-beta";
          Path_ "/usr/bin/microsoft-edge-dev";
          Path_ "/opt/microsoft/msedge/msedge";
          Path_ "/snap/bin/microsoft-edge" ]
  else ret [].

(** The loop shared by [find_chrome] and [find_edge]:
    [for path in paths: if path.exists() and path.is_file(): ... return path],
    falling out of the loop with [None]. *)
Fixpoint first_file (found_fmt : string) (paths : list Path) : Run (option Path) :=
  match paths with
  | [] => ret None
  | path :: rest =>
      e <- path_exists path ;;
      ok <- (if e then path_is_file path else ret false) ;;
      if ok then
        log INFO found_fmt ;;; ret (Some path)
      else first_file found_fmt rest
  end.

Definition find_chrome : Run (option Path) :=
  log DEBUG "Searching for Google Chrome..." ;;;
  paths <- get_chrome_paths ;;
  r <- first_file "Found Chrome at: %s" paths ;;
  match r with
  | Some path => ret (Some path)
  | None => log DEBUG "Chrome not found" ;;; ret None
  end.

Definition find_edge : Run (option Path) :=
  log DEBUG "Searching for Microsoft Edge..." ;;;
  paths <- get_edge_paths ;;
  r <- first_file "Found Edge at: %s" paths ;;
  match r with
  | Some path => ret (Some path)
  | None => log DEBUG "Edge not found" ;;; ret None
  end.

Definition find_system_chromium : Run (option Path) :=
  log DEBUG "Searching for system Chromium browsers..." ;;;
  chrome_path <- find_chrome ;;
  match chrome_path with
  | Some p => log INFO "Using Chrome as preferred browser" ;;; ret (Some p)
  | None =>
      edge_path <- find_edge ;;
      match edge_path with
      | Some p => log INFO "Using Edge as fallback browser" ;;; ret (Some p)
      | None =>
          log WARNING "No Chromium-based browser found on system" ;;; ret None
      end
  end.

(** The dictionary [get_chromium_info] returns, one field per key. *)
Record BrowserInfo := mkBrowserInfo {
  available : bool;
  path : option string
}.

Record ChromiumInfo := mkChromiumInfo {
  chrome : BrowserInfo;
  edge : BrowserInfo;
  any_available : bool;
  preferred : option string
}.

Definition is_not_None {A} (o : option A) : bool :=
  match o with Some _ => true | None => false end.

Definition get_chromium_info : Run ChromiumInfo :=
  chrome <- find_chrome ;;
  edge <- find_edge ;;
  ret {| chrome := {| available := is_not_None chrome;
                      path := match chrome with
                              | Some c => Some (Pathlib.str c)
                              | None => None
                              end |};
         edge := {| available := is_not_None edge;
                    path := match edge with
                            | Some e => Some (Pathlib.str e)
                            | None => None
                            end |};
         any_available := is_not_None chrome || is_not_None edge;
         preferred := match chrome with
                      | Some c => Some (Pathlib.str c)
                      | None => match edge with
                                | Some e => Some (Pathlib.str e)
                                | None => None
                                end
                      end |}.

(** ** get_chromium/__init__.py *)

Definition find_existing_chromium (install_dir : option Path) : Run (option Path) :=
  emit (EvFindExisting install_dir) ;;; ret (lookup_cached h install_dir).

Definition install_chromium (install_dir : option Path)
    (clean_existing force_reinstall : bool) : Run Path :=
  emit (EvInstall install_dir clean_existing force_reinstall) ;;;
  match installer h install_dir clean_existing force_reinstall with
  | Installed p => ret p
  | InstallFailed e => raise e
  end.

Definition msg_download_failed : string :=
  "Failed to download Chromium and no other browser found".

Definition msg_no_options : string :=
  "No Chromium browser found. Either install Chrome/Edge on your system, "
  ++ "or allow Chromium download by setting allow_download=True".

(** Step 3 of [get_chromium_install], then the code after it. *)
Definition download_tier (allow_download : bool) (install_dir : option Path)
    (force_reinstall : bool) : Run Path :=
  if allow_download then
    log INFO "Downloading portable Chromium..." ;;;
    try_except
      (chrome_path <- install_chromium install_dir false force_reinstall ;;
       log INFO "Using downloaded portable Chromium: %s" ;;;
       ret chrome_path)
      (fun e =>
         log ERROR "Failed to download Chromium: %s" ;;;
         raise (ChromiumNotFoundError msg_download_failed (Some e)))
  else
    log ERROR "No Chromium browser found and installation is disallowed" ;;;
    raise (ChromiumNotFoundError msg_no_options None).

(** Step 2, then what follows it. *)
Definition cached_tier (allow_download : bool) (install_dir : option Path)
    (force_reinstall : bool) : Run Path :=
  if allow_download && negb force_reinstall then
    log DEBUG "Checking for existing portable Chromium installation..." ;;;
    existing_chrome <- find_existing_chromium install_dir ;;
    match existing_chrome with
    | Some p => log INFO "Using existing portable Chromium: %s" ;;; ret p
    | None =>
        log DEBUG "No existing portable installation found" ;;;
        download_tier allow_download install_dir force_reinstall
    end
  else download_tier allow_download install_dir force_reinstall.

Definition get_chromium_install (allow_system allow_download : bool)
    (install_dir : option Path) (force_reinstall : bool) : Run Path :=
  if allow_system then
    log DEBUG "Searching for system-installed Chromium browsers..." ;;;
    system_chrome <- find_system_chromium ;;
    match system_chrome with
    | Some p => log INFO "Using system-installed browser: %s" ;;; ret p
    | None =>
        log DEBUG "No system browser found" ;;;
        cached_tier allow_download install_dir force_reinstall
    end
  else cached_tier allow_download install_dir force_reinstall.

End Probe.

(** ** Derived notions used in the statements *)

(** The candidate lists as values: what the probe returns on host [h]. *)
Definition candidates_of (r : Run (list Path)) : list Path :=
  match outcome r with
  | Returned l => l
  | Raised _ => []
  end.

Definition chrome_candidates (h : Host) : list Path := candidates_of (get_chrome_paths h).
Definition edge_candidates (h : Host) : list Path := candidates_of (get_edge_paths h).

(** The test the loops of [find_chrome] and [find_edge] apply to a candidate. *)
Definition detected (h : Host) (p : Path) : bool :=
  node_exists (node_at h p) && node_is_file (node_at h p).

Definition found_chrome (h : Host) : option Path := find (detected h) (chrome_candidates h).
Definition found_edge (h : Host) : option Path := find (detected h) (edge_candidates h).

(** No event of the trace is a call to the installer collaborator. *)
Definition installer_free (t : list Event) : Prop :=
  Forall (fun e => is_installer_event e = false) t.

(** ** Sample hosts *)

Definition flavour_eqb (a b : Flavour) : bool :=
  match a, b with
  | Posix, Posix | Windows, Windows => true
  | _, _ => false
  end.

Fixpoint strings_eqb (a b : list string) : bool :=
  match a, b with
  | [], [] => true
  | x :: a', y :: b' => String.eqb x y && strings_eqb a' b'
  | _, _ => false
  end.

Definition path_eqb (p q : Path) : bool :=
  flavour_eqb (flav p) (flav q) && String.eqb (drive p) (drive q)
  && String.eqb (root p) (root q) && strings_eqb (tail p) (tail q).

Module Hosts.

Definition posix (s : string) : Path := Pathlib.parse Posix s.

Definition no_env : string -> option string := fun _ => None.

Definition files (regular dirs : list Path) (p : Path) : Node :=
  if existsb (path_eqb p) regular then RegularFile
  else if existsb (path_eqb p) dirs then Directory
  else Absent.

Definition no_cache : option Path -> option Path := fun _ => None.

Definition portable : Path := posix "/home/user/.pwa/chrome-linux/chrome".

Definition cache_hit : option Path -> option Path := fun _ => Some portable.

Definition install_ok : option Path -> bool -> bool -> InstallResult :=
  fun _ _ _ => Installed portable.

Definition network_down : PyException := Exc "URLError" "network unreachable" None.

Definition install_fails : option Path -> bool -> bool -> InstallResult :=
  fun _ _ _ => InstallFailed network_down.

(** A Linux machine with Chrome (stable channel) and Edge installed. *)
Definition linux_both : Host :=
  mkHost Posix "Linux" no_env "/home/user"
    (files [posix "/usr/bin/google-chrome-stable"; posix "/usr/bin/microsoft-edge"] [])
    no_cache install_ok.

(** A Linux machine with Edge only. *)
Definition linux_edge : Host :=
  mkHost Posix "Linux" no_env "/home/user"
    (files [posix "/usr/bin/microsoft-edge"] [])
    no_cache install_ok.

(** A Linux machine where a directory sits at the first Chrome candidate
    and the real binary at the third. *)
Definition linux_dir : Host :=
  mkHost Posix "Linux" no_env "/home/user"
    (files [posix "/usr/bin/chrome"; posix "/usr/bin/microsoft-edge"]
           [posix "/usr/bin/google-chrome"])
    no_cache install_ok.

(** A Linux machine without any browser, with a cached portable install. *)
Definition linux_cached : Host :=
  mkHost Posix "Linux" no_env "/home/user" (files [] []) cache_hit install_fails.

(** A Linux machine without any browser and a working installer. *)
Definition linux_bare : Host :=
  mkHost Posix "Linux" no_env "/home/user" (files [] []) no_cache install_ok.

(** A Linux machine without any browser, off line. *)
Definition linux_offline : Host :=
  mkHost Posix "Linux" no_env "/home/user" (files [] []) no_cache install_fails.



End Hosts.

(** ** Notions the statements are written in *)

(** What [find_system_chromium] yields: Chrome if found, else Edge. *)
Definition found_system (h : Host) : option Path :=
  match found_chrome h with
  | Some p => Some p
  | None => found_edge h
  end.

(** A segment that parses to a single relative component. *)
Definition plain (s : string) : Prop :=
  forall fl, Pathlib.parse fl s = mkPath fl "" "" [s].

(** The file names the two families end in. *)
Definition chrome_names : list string :=
  ["chrome.exe"; "Google Chrome"; "google-chrome"; "google-chrome-stable"; "chrome";
   "chromium"].

Definition edge_names : list string :=
  ["msedge.exe"; "Microsoft Edge"; "microsoft-edge"; "microsoft-edge-stable";
   "microsoft-edge-beta"; "microsoft-edge-dev"; "msedge"].

Definition name_in (names : list string) (p : Path) : bool :=
  existsb (String.eqb (Pathlib.name p)) names.

(** The calls of the system tier when it does not produce a browser. *)
Definition system_tier_trace (h : Host) (allow_system : bool) : list Event :=
  if allow_system then
    (EvLog DEBUG "Searching for system-installed Chromium browsers..."
       :: trace (find_system_chromium h) ++ [EvLog DEBUG "No system browser found"])%list
  else [].

(** The call reaches past the system tier. *)
Definition past_system (h : Host) (allow_system : bool) : Prop :=
  allow_system = false \/ found_system h = None.


(** Whether the download tier runs once the system tier is passed. *)
Definition reaches_install (h : Host) (ad : bool) (dir : option Path) (fr : bool) : bool :=
  ad && (fr || negb (is_not_None (lookup_cached h dir))).


(** ** Further notions: which calls a run makes *)

Definition is_system_event (e : Event) : bool :=
  match e with EvSystem => true | _ => false end.

Definition is_env_event (e : Event) : bool :=
  match e with EvEnviron _ => true | _ => false end.

Definition is_home_event (e : Event) : bool :=
  match e with EvHome => true | _ => false end.

(** No event of the trace belongs to the class [f]. *)
Definition avoids (f : Event -> bool) (t : list Event) : Prop :=
  Forall (fun e => f e = false) t.

(** The filesystem calls the detection loop makes for one candidate:
    [exists()], and [is_file()] only when [exists()] answered yes. *)
Definition probe_calls (h : Host) (p : Path) : list Event :=
  EvExists p :: (if node_exists (node_at h p) then [EvIsFile p] else []).

(** The candidates the detection loop looks at: those before the first one
    detected, and that one. *)
Fixpoint examined (h : Host) (paths : list Path) : list Path :=
  match paths with
  | [] => []
  | p :: rest => if detected h p then [p] else p :: examined h rest
  end.

(** The platform names the probe knows. *)
Definition recognized (system : string) : bool :=
  (system =? "Windows") || (system =? "Darwin") || (system =? "Linux").

(** Further sample hosts. *)
Module MoreHosts.

(** A FreeBSD machine: a platform the probe has no list for, with a binary
    sitting where Linux would have Chrome. *)
Definition freebsd : Host :=
  mkHost Posix "FreeBSD" Hosts.no_env "/home/user"
    (Hosts.files [Hosts.posix "/usr/bin/google-chrome"] [])
    Hosts.no_cache Hosts.install_fails.


End MoreHosts.

(** The resolution as a function of what the host offers, in the words of
    the specification: the first Chrome candidate found, else the first Edge
    candidate found, when the system tier is allowed; else the cached
    install, when downloading is allowed and no reinstall is forced; else
    the result of the install operation, when downloading is allowed; else
    the failure. *)
Definition resolution (h : Host) (allow_system allow_download : bool)
    (install_dir : option Path) (force_reinstall : bool) : Outcome Path :=
  let system_tier :=
    if allow_system then
      match find (detected h) (chrome_candidates h) with
      | Some c => Some c
      | None => find (detected h) (edge_candidates h)
      end
    else None in
  let cached_tier :=
    if allow_download && negb force_reinstall then lookup_cached h install_dir
    else None in
  match system_tier, cached_tier with
  | Some p, _ => Returned p
  | None, Some p => Returned p
  | None, None =>
      if allow_download then
        match installer h install_dir false force_reinstall with
        | Installed p => Returned p
        | InstallFailed e => Raised (ChromiumNotFoundError msg_download_failed (Some e))
        end
      else Raised (ChromiumNotFoundError msg_no_options None)
  end.

(** ** Probes that fail

    The embedding above is over a host whose probe calls all answer.  On a
    real machine they may not: [exists()] and [is_file()] pass on every
    [OSError] of [stat()] except the ones pathlib reads as absence (ENOENT,
    ENOTDIR, EBADF, ELOOP), a [PermissionError] for instance, and
    [Path.home()] raises [RuntimeError] when [os.path.expanduser("~")]
    leaves the tilde in place.  Nothing in the two modules catches these
    errors.  [Fallible] is the same code over a machine where this happens. *)

Module Fallible.

Record World := mkWorld {
  (** what answers, as before; [home_dir] is what [os.path.expanduser("~")]
      returns *)
  host : Host;
  (** the error [stat()] raises at a path and pathlib passes on, if any *)
  stat_error : Path -> option PyException
}.

(** The error of [expanduser]. *)
Definition home_unknown : PyException :=
  Exc "RuntimeError" "Could not determine home directory." None.

Section Code.

Variable w : World.

Definition path_exists (p : Path) : Run bool :=
  emit (EvExists p) ;;;
  match stat_error w p with
  | Some e => raise e
  | None => ret (node_exists (node_at (host w) p))
  end.

Definition path_is_file (p : Path) : Run bool :=
  emit (EvIsFile p) ;;;
  match stat_error w p with
  | Some e => raise e
  | None => ret (node_is_file (node_at (host w) p))
  end.

(** [Path.home()], that is [Path("~").expanduser()]. *)
Definition Path_home : Run Path :=
  emit EvHome ;;;
  if Str.starts_with_char "~" (home_dir (host w)) then raise home_unknown
  else ret (Path_ (host w) (home_dir (host w))).

Definition get_chrome_paths : Run (list Path) :=
  system <- platform_system (host w) ;;
  if system =? "Windows" then
    program_files <- environ_get (host w) "PROGRAMFILES" "C:\Program Files" ;;
    program_files_x86 <-
      environ_get (host w) "PROGRAMFILES(X86)" "C:\Program Files (x86)" ;;
    local_appdata <- environ_get (host w) "LOCALAPPDATA" "" ;;
    ret [ Path_ (host w) program_files // "Google" // "Chrome" // "Application"
            // "chrome.exe";
          Path_ (host w) program_files_x86 // "Google" // "Chrome" // "Application"
            // "chrome.exe";
          Path_ (host w) local_appdata // "Google" // "Chrome" // "Application"
            // "chrome.exe" ]
  else if system =? "Darwin" then
    home <- Path_home ;;
    ret [ Path_ (host w) "/Applications/Google Chrome.app/Contents/MacOS/Google Chrome";
          home // "Applications" // "Google Chrome.app" // "Contents" // "MacOS"
               // "Google Chrome" ]
  else if system =? "Linux" then
    ret [ Path_ (host w) "/usr/bin/google-chrome";
          Path_ (host w) "/usr/bin/google-chrome-stable";
          Path_ (host w) "/usr/bin/chrome";
          Path_ (host w) "/usr/local/bin/google-chrome";
          Path_ (host w) "/usr/local/bin/chrome";
          Path_ (host w) "/opt/google/chrome/chrome";
          Path_ (host w) "/snap/bin/chromium" ]
  else ret [].

Definition get_edge_paths : Run (list Path) :=
  system <- platform_system (host w) ;;
  if system =? "Windows" then
    program_files <- environ_get (host w) "PROGRAMFILES" "C:\Program Files" ;;
    program_files_x86 <-
      environ_get (host w) "PROGRAMFILES(X86)" "C:\Program Files (x86)" ;;
    ret [ Path_ (host w) program_files // "Microsoft" // "Edge" // "Application"
            // "msedge.exe";
          Path_ (host w) program_files_x86 // "Microsoft" // "Edge" // "Application"
            // "msedge.exe" ]
  else if system =? "Darwin" then
    home <- Path_home ;;
    ret [ Path_ (host w)
            "/Applications/Microsoft Edge.app/Contents/MacOS/Microsoft Edge";
          home // "Applications" // "Microsoft Edge.app" // "Contents" // "MacOS"
               // "Microsoft Edge" ]
  else if system =? "Linux" then
    ret [ Path_ (host w) "/usr/bin/microsoft-edge";
          Path_ (host w) "/usr/bin/microsoft-edge-stable";
          Path_ (host w) "/usr/bin/microsoft-edge-beta";
          Path_ (host w) "/usr/bin/microsoft-edge-dev";
          Path_ (host w) "/opt/microsoft/msedge/msedge";
          Path_ (host w) "/snap/bin/microsoft-edge" ]
  else ret [].

Fixpoint first_file (found_fmt : string) (paths : list Path) : Run (option Path) :=
  match paths with
  | [] => ret None
  | path :: rest =>
      e <- path_exists path ;;
      ok <- (if e then path_is_file path else ret false) ;;
      if ok then
        log INFO found_fmt ;;; ret (Some path)
      else first_file found_fmt rest
  end.

Definition find_chrome : Run (option Path) :=
  log DEBUG "Searching for Google Chrome..." ;;;
  paths <- get_chrome_paths ;;
  r <- first_file "Found Chrome at: %s" paths ;;
  match r with
  | Some path => ret (Some path)
  | None => log DEBUG "Chrome not found" ;;; ret None
  end.

Definition find_edge : Run (option Path) :=
  log DEBUG "Searching for Microsoft Edge..." ;;;
  paths <- get_edge_paths ;;
  r <- first_file "Found Edge at: %s" paths ;;
  match r with
  | Some path => ret (Some path)
  | None => log DEBUG "Edge not found" ;;; ret None
  end.

Definition find_system_chromium : Run (option Path) :=
  log DEBUG "Searching for system Chromium browsers..." ;;;
  chrome_path <- find_chrome ;;
  match chrome_path with
  | Some p => log INFO "Using Chrome as preferred browser" ;;; ret (Some p)
  | None =>
      edge_path <- find_edge ;;
      match edge_path with
      | Some p => log INFO "Using Edge as fallback browser" ;;; ret (Some p)
      | None =>
          log WARNING "No Chromium-based browser found on system" ;;; ret None
      end
  end.

(** Steps 2 and 3 make no probe call: they are [cached_tier] as before. *)
Definition get_chromium_install (allow_system allow_download : bool)
    (install_dir : option Path) (force_reinstall : bool) : Run Path :=
  if allow_system then
    log DEBUG "Searching for system-installed Chromium browsers..." ;;;
    system_chrome <- find_system_chromium ;;
    match system_chrome with
    | Some p => log INFO "Using system-installed browser: %s" ;;; ret p
    | None =>
        log DEBUG "No system browser found" ;;;
        cached_tier (host w) allow_download install_dir force_reinstall
    end
  else cached_tier (host w) allow_download install_dir force_reinstall.

End Code.

(** Every probe call of the world answers. *)
Definition answers (w : World) : Prop :=
  (forall p, stat_error w p = None)
  /\ Str.starts_with_char "~" (home_dir (host w)) = false.

(** [e] is an error one of the world's probe calls raises. *)
Definition probe_error (w : World) (e : PyException) : Prop :=
  (Str.starts_with_char "~" (home_dir (host w)) = true /\ e = home_unknown)
  \/ exists p, stat_error w p = Some e.

(** A host as a world without [stat()] errors. *)
Definition quiet (h : Host) : World := mkWorld h (fun _ => None).

End Fallible.

(** The log line of the final branch of [get_chromium_install]. *)
Definition is_final_branch_log (e : Event) : bool :=
  match e with
  | EvLog ERROR fmt => fmt =? "No Chromium browser found and installation is disallowed"
  | _ => false
  end.


(** Sample worlds. *)
Module Worlds.

Definition permission_denied : PyException :=
  Exc "PermissionError" "[Errno 13] Permission denied: '/opt/google/chrome/chrome'" None.

(** A Linux machine without a browser, with a working installer, where
    [/opt/google] may not be searched by the user. *)
Definition locked_opt : Fallible.World :=
  Fallible.mkWorld Hosts.linux_bare
    (fun p => if path_eqb p (Hosts.posix "/opt/google/chrome/chrome")
              then Some permission_denied else None).


End Worlds.

(** A class of events that holds no probe call and none of the log lines of
    the system tier. *)
Definition outside_system_tier (f : Event -> bool) : Prop :=
  (forall e, is_probe_event e = true -> f e = false)
  /\ (forall fmt, f (EvLog DEBUG fmt) = false)
  /\ (forall fmt, f (EvLog INFO fmt) = false)
  /\ (forall fmt, f (EvLog WARNING fmt) = false).

(** * Properties *)

(** ** The run monad *)

Lemma outcome_bind {A B} (m : Run A) (k : A -> Run B) :
  outcome (bind m k) =
  match outcome m with
  | Returned a => outcome (k a)
  | Raised e => Raised e
  end.
Proof.
  destruct m as [t [a | e]]; simpl; [ | reflexivity ].
  destruct (k a); reflexivity.
Qed.

Lemma trace_bind {A B} (m : Run A) (k : A -> Run B) :
  trace (bind m k) =
  (trace m ++ match outcome m with
              | Returned a => trace (k a)
              | Raised _ => []
              end)%list.
Proof.
  destruct m as [t [a | e]]; simpl.
  - destruct (k a); reflexivity.
  - now rewrite app_nil_r.
Qed.

Lemma run_eta {A} (r : Run A) : r = (trace r, outcome r).
Proof. now destruct r. Qed.

Lemma installer_free_app t1 t2 :
  installer_free t1 -> installer_free t2 -> installer_free (t1 ++ t2).
Proof. unfold installer_free. intros. now apply Forall_app. Qed.

Lemma installer_free_bind {A B} (m : Run A) (k : A -> Run B) :
  installer_free (trace m) ->
  (forall a, installer_free (trace (k a))) ->
  installer_free (trace (bind m k)).
Proof.
  intros Hm Hk. rewrite trace_bind. apply installer_free_app; [ assumption | ].
  destruct (outcome m); [ apply Hk | constructor ].
Qed.

Lemma installer_free_count t :
  installer_free t -> count is_install_event t = 0 /\ count is_lookup_event t = 0.
Proof.
  unfold count. induction 1 as [ | e t He _ [IH1 IH2] ]; [ now split | ].
  unfold is_installer_event in He. apply orb_false_iff in He as [Hl Hi].
  simpl. now rewrite Hl, Hi.
Qed.

Lemma count_app f t1 t2 : count f (t1 ++ t2) = count f t1 + count f t2.
Proof. unfold count. now rewrite filter_app, length_app. Qed.

(** ** The detection loop *)

Lemma detected_regular h p : detected h p = true <-> node_at h p = RegularFile.
Proof. unfold detected. destruct (node_at h p); simpl; split; congruence. Qed.

Lemma path_exists_run h p :
  path_exists h p = ([EvExists p], Returned (node_exists (node_at h p))).
Proof. reflexivity. Qed.

Lemma path_is_file_run h p :
  path_is_file h p = ([EvIsFile p], Returned (node_is_file (node_at h p))).
Proof. reflexivity. Qed.

Lemma first_file_outcome h fmt paths :
  outcome (first_file h fmt paths) = Returned (find (detected h) paths).
Proof.
  induction paths as [ | p rest IH ]; [ reflexivity | ].
  cbn [first_file find]. unfold detected at 1.
  rewrite outcome_bind, path_exists_run. cbn [outcome snd].
  destruct (node_exists (node_at h p)); cbn [andb].
  - rewrite outcome_bind, path_is_file_run. cbn [outcome snd].
    destruct (node_is_file (node_at h p)); [ reflexivity | exact IH ].
  - rewrite outcome_bind. exact IH.
Qed.

Lemma first_file_installer_free h fmt paths :
  installer_free (trace (first_file h fmt paths)).
Proof.
  induction paths as [ | p rest IH ]; [ constructor | ].
  cbn [first_file].
  apply installer_free_bind; [ repeat constructor | intros e ].
  apply installer_free_bind.
  - destruct e; repeat constructor.
  - intros [ | ]; [ repeat constructor | exact IH ].
Qed.

(** ** The platform probe *)

Lemma platform_system_run h : platform_system h = ([EvSystem], Returned (system_name h)).
Proof. reflexivity. Qed.

Lemma environ_get_run h var default :
  environ_get h var default = ([EvEnviron var], Returned (environ_value h var default)).
Proof. reflexivity. Qed.

Lemma Path_home_run h : Path_home h = ([EvHome], Returned (Path_ h (home_dir h))).
Proof. reflexivity. Qed.

Lemma log_run lvl fmt : log lvl fmt = ([EvLog lvl fmt], Returned tt).
Proof. reflexivity. Qed.

Ltac run_step :=
  rewrite ?outcome_bind, ?platform_system_run, ?environ_get_run, ?Path_home_run,
    ?log_run;
  cbn [outcome snd trace fst].

Ltac free_step :=
  first
    [ apply installer_free_bind; [ | intros ? ]
    | apply first_file_installer_free
    | solve [ repeat constructor ] ].

Lemma get_chrome_paths_total h : exists l, outcome (get_chrome_paths h) = Returned l.
Proof.
  unfold get_chrome_paths. run_step.
  destruct (system_name h =? "Windows"); [ repeat run_step; eexists; reflexivity | ].
  destruct (system_name h =? "Darwin"); [ repeat run_step; eexists; reflexivity | ].
  destruct (system_name h =? "Linux"); eexists; reflexivity.
Qed.

Lemma get_edge_paths_total h : exists l, outcome (get_edge_paths h) = Returned l.
Proof.
  unfold get_edge_paths. run_step.
  destruct (system_name h =? "Windows"); [ repeat run_step; eexists; reflexivity | ].
  destruct (system_name h =? "Darwin"); [ repeat run_step; eexists; reflexivity | ].
  destruct (system_name h =? "Linux"); eexists; reflexivity.
Qed.

Lemma get_chrome_paths_returns h :
  outcome (get_chrome_paths h) = Returned (chrome_candidates h).
Proof.
  unfold chrome_candidates, candidates_of.
  destruct (get_chrome_paths_total h) as [l ->]. reflexivity.
Qed.

Lemma get_edge_paths_returns h :
  outcome (get_edge_paths h) = Returned (edge_candidates h).
Proof.
  unfold edge_candidates, candidates_of.
  destruct (get_edge_paths_total h) as [l ->]. reflexivity.
Qed.

Lemma get_chrome_paths_installer_free h : installer_free (trace (get_chrome_paths h)).
Proof.
  unfold get_chrome_paths. free_step; [ repeat free_step | ].
  destruct (_ =? "Windows"); [ repeat free_step | ].
  destruct (_ =? "Darwin"); [ repeat free_step | ].
  destruct (_ =? "Linux"); repeat free_step.
Qed.

Lemma get_edge_paths_installer_free h : installer_free (trace (get_edge_paths h)).
Proof.
  unfold get_edge_paths. free_step; [ repeat free_step | ].
  destruct (_ =? "Windows"); [ repeat free_step | ].
  destruct (_ =? "Darwin"); [ repeat free_step | ].
  destruct (_ =? "Linux"); repeat free_step.
Qed.

(** ** System detection *)

Lemma find_chrome_outcome h : outcome (find_chrome h) = Returned (found_chrome h).
Proof.
  unfold find_chrome, found_chrome. run_step.
  rewrite get_chrome_paths_returns. run_step.
  rewrite first_file_outcome.
  destruct (find _ _); [ reflexivity | now run_step ].
Qed.

Lemma find_edge_outcome h : outcome (find_edge h) = Returned (found_edge h).
Proof.
  unfold find_edge, found_edge. run_step.
  rewrite get_edge_paths_returns. run_step.
  rewrite first_file_outcome.
  destruct (find _ _); [ reflexivity | now run_step ].
Qed.

Lemma find_chrome_installer_free h : installer_free (trace (find_chrome h)).
Proof.
  unfold find_chrome.
  apply installer_free_bind; [ repeat constructor | intros _ ].
  apply installer_free_bind; [ apply get_chrome_paths_installer_free | intros paths ].
  apply installer_free_bind; [ apply first_file_installer_free | intros r ].
  destruct r; repeat free_step.
Qed.

Lemma find_edge_installer_free h : installer_free (trace (find_edge h)).
Proof.
  unfold find_edge.
  apply installer_free_bind; [ repeat constructor | intros _ ].
  apply installer_free_bind; [ apply get_edge_paths_installer_free | intros paths ].
  apply installer_free_bind; [ apply first_file_installer_free | intros r ].
  destruct r; repeat free_step.
Qed.

Lemma find_system_chromium_outcome h :
  outcome (find_system_chromium h) = Returned (found_system h).
Proof.
  unfold find_system_chromium, found_system. run_step.
  rewrite find_chrome_outcome.
  destruct (found_chrome h); [ now run_step | ].
  run_step. rewrite find_edge_outcome.
  destruct (found_edge h); now run_step.
Qed.

Lemma find_system_chromium_installer_free h :
  installer_free (trace (find_system_chromium h)).
Proof.
  unfold find_system_chromium.
  apply installer_free_bind; [ repeat constructor | intros _ ].
  apply installer_free_bind; [ apply find_chrome_installer_free | intros c ].
  destruct c; [ repeat free_step | ].
  apply installer_free_bind; [ apply find_edge_installer_free | intros e ].
  destruct e; repeat free_step.
Qed.

(** ** Joining plain names onto a path *)

Lemma joinpath_plain p s :
  plain s -> p // s = mkPath (flav p) (drive p) (root p) (tail p ++ [s]).
Proof. intros Hs. unfold Pathlib.joinpath. rewrite Hs. reflexivity. Qed.

Lemma name_joinpath p s : plain s -> Pathlib.name (p // s) = s.
Proof.
  intros Hs. rewrite (joinpath_plain _ _ Hs). unfold Pathlib.name. simpl.
  apply last_last.
Qed.


Ltac plain_tac := intros [ | ]; reflexivity.

Lemma plain_Google : plain "Google". Proof. plain_tac. Qed.
Lemma plain_Chrome : plain "Chrome". Proof. plain_tac. Qed.
Lemma plain_Microsoft : plain "Microsoft". Proof. plain_tac. Qed.
Lemma plain_Edge : plain "Edge". Proof. plain_tac. Qed.
Lemma plain_Application : plain "Application". Proof. plain_tac. Qed.
Lemma plain_chrome_exe : plain "chrome.exe". Proof. plain_tac. Qed.
Lemma plain_msedge_exe : plain "msedge.exe". Proof. plain_tac. Qed.
Lemma plain_Applications : plain "Applications". Proof. plain_tac. Qed.
Lemma plain_Google_Chrome_app : plain "Google Chrome.app". Proof. plain_tac. Qed.
Lemma plain_Microsoft_Edge_app : plain "Microsoft Edge.app". Proof. plain_tac. Qed.
Lemma plain_Contents : plain "Contents". Proof. plain_tac. Qed.
Lemma plain_MacOS : plain "MacOS". Proof. plain_tac. Qed.
Lemma plain_Google_Chrome : plain "Google Chrome". Proof. plain_tac. Qed.
Lemma plain_Microsoft_Edge : plain "Microsoft Edge". Proof. plain_tac. Qed.

Create HintDb plain_names.
#[local] Hint Resolve plain_Google plain_Chrome plain_Microsoft plain_Edge
  plain_Application plain_chrome_exe plain_msedge_exe plain_Applications
  plain_Google_Chrome_app plain_Microsoft_Edge_app plain_Contents plain_MacOS
  plain_Google_Chrome plain_Microsoft_Edge : plain_names.

Ltac name_tac h :=
  first
    [ rewrite name_joinpath by auto with plain_names; reflexivity
    | unfold Path_; destruct (os_flavour h); reflexivity ].

Lemma chrome_candidates_names h :
  Forall (fun p => name_in chrome_names p = true) (chrome_candidates h).
Proof.
  unfold chrome_candidates, candidates_of, get_chrome_paths. run_step.
  destruct (system_name h =? "Windows").
  { repeat run_step. unfold name_in. repeat constructor; name_tac h. }
  destruct (system_name h =? "Darwin").
  { repeat run_step. unfold name_in. repeat constructor; name_tac h. }
  destruct (system_name h =? "Linux"); [ | constructor ].
  cbn [outcome snd ret]. unfold name_in. repeat constructor; name_tac h.
Qed.

Lemma edge_candidates_names h :
  Forall (fun p => name_in edge_names p = true) (edge_candidates h).
Proof.
  unfold edge_candidates, candidates_of, get_edge_paths. run_step.
  destruct (system_name h =? "Windows").
  { repeat run_step. unfold name_in. repeat constructor; name_tac h. }
  destruct (system_name h =? "Darwin").
  { repeat run_step. unfold name_in. repeat constructor; name_tac h. }
  destruct (system_name h =? "Linux"); [ | constructor ].
  cbn [outcome snd ret]. unfold name_in. repeat constructor; name_tac h.
Qed.

Lemma names_disjoint s :
  existsb (String.eqb s) chrome_names = true ->
  existsb (String.eqb s) edge_names = true -> False.
Proof.
  intros Hc He.
  apply existsb_exists in Hc as [a [Ha Hsa]].
  apply existsb_exists in He as [b [Hb Hsb]].
  apply String.eqb_eq in Hsa, Hsb. subst a b.
  unfold chrome_names, edge_names in *. cbn [In] in Ha, Hb.
  repeat match goal with
         | H : _ \/ _ |- _ => destruct H
         | H : False |- _ => destruct H
         end; subst s; discriminate.
Qed.

(** No path is a candidate of both families. *)
Lemma candidates_disjoint h p :
  In p (chrome_candidates h) -> In p (edge_candidates h) -> False.
Proof.
  intros Hc He.
  pose proof (chrome_candidates_names h) as Fc.
  pose proof (edge_candidates_names h) as Fe.
  rewrite Forall_forall in Fc, Fe.
  exact (names_disjoint _ (Fc p Hc) (Fe p He)).
Qed.

(** ** The resolver, tier by tier *)

Lemma download_tier_run h ad dir fr :
  download_tier h ad dir fr =
  if ad then
    match installer h dir false fr with
    | Installed p =>
        ([EvLog INFO "Downloading portable Chromium..."; EvInstall dir false fr;
          EvLog INFO "Using downloaded portable Chromium: %s"], Returned p)
    | InstallFailed e =>
        ([EvLog INFO "Downloading portable Chromium..."; EvInstall dir false fr;
          EvLog ERROR "Failed to download Chromium: %s"],
         Raised (ChromiumNotFoundError msg_download_failed (Some e)))
    end
  else
    ([EvLog ERROR "No Chromium browser found and installation is disallowed"],
     Raised (ChromiumNotFoundError msg_no_options None)).
Proof.
  unfold download_tier, install_chromium. destruct ad; [ | reflexivity ].
  destruct (installer h dir false fr); reflexivity.
Qed.

Lemma cached_tier_run h ad dir fr :
  cached_tier h ad dir fr =
  if ad && negb fr then
    match lookup_cached h dir with
    | Some p =>
        ([EvLog DEBUG "Checking for existing portable Chromium installation...";
          EvFindExisting dir; EvLog INFO "Using existing portable Chromium: %s"],
         Returned p)
    | None =>
        ([EvLog DEBUG "Checking for existing portable Chromium installation...";
          EvFindExisting dir; EvLog DEBUG "No existing portable installation found"]
           ++ trace (download_tier h ad dir fr),
         outcome (download_tier h ad dir fr))%list
    end
  else download_tier h ad dir fr.
Proof.
  unfold cached_tier, find_existing_chromium.
  destruct (ad && negb fr); [ | reflexivity ].
  destruct (lookup_cached h dir); cbn; [ reflexivity | ].
  now destruct (download_tier h ad dir fr).
Qed.

Lemma get_chromium_install_hit h ad dir fr p :
  found_system h = Some p ->
  get_chromium_install h true ad dir fr =
  ((EvLog DEBUG "Searching for system-installed Chromium browsers..."
      :: trace (find_system_chromium h)
      ++ [EvLog INFO "Using system-installed browser: %s"])%list,
   Returned p).
Proof.
  intros Hp. unfold get_chromium_install.
  rewrite (run_eta (find_system_chromium h)), find_system_chromium_outcome, Hp.
  reflexivity.
Qed.

Lemma get_chromium_install_past h allow_system ad dir fr :
  past_system h allow_system ->
  get_chromium_install h allow_system ad dir fr =
  ((system_tier_trace h allow_system ++ trace (cached_tier h ad dir fr))%list,
   outcome (cached_tier h ad dir fr)).
Proof.
  intros Hpast. unfold get_chromium_install, system_tier_trace.
  destruct allow_system.
  - destruct Hpast as [ Hf | Hn ]; [ discriminate | ].
    rewrite (run_eta (find_system_chromium h)), find_system_chromium_outcome, Hn.
    cbn. destruct (cached_tier h ad dir fr). cbn.
    now rewrite <- app_assoc.
  - apply run_eta.
Qed.

Lemma system_tier_trace_installer_free h allow_system :
  installer_free (system_tier_trace h allow_system).
Proof.
  unfold system_tier_trace. destruct allow_system; [ | constructor ].
  constructor; [ reflexivity | ].
  apply installer_free_app; [ apply find_system_chromium_installer_free | ].
  repeat constructor.
Qed.

Lemma found_system_cases h allow_system :
  past_system h allow_system \/ exists p, allow_system = true /\ found_system h = Some p.
Proof.
  unfold past_system. destruct allow_system; [ | now left; left ].
  destruct (found_system h) as [ p | ]; [ right; now exists p | now left; right ].
Qed.

Lemma exc_not_own_cause cls msg e : Exc cls msg (Some e) <> e.
Proof.
  intros H. apply (f_equal exc_depth) in H. simpl in H. lia.
Qed.

Lemma find_none_iff {A} (f : A -> bool) l :
  find f l = None <-> forall x, In x l -> f x = false.
Proof.
  split.
  - intros H x Hx. exact (find_none f l H x Hx).
  - induction l as [ | a l IH ]; intros H; [ reflexivity | ].
    simpl. rewrite (H a (or_introl eq_refl)). apply IH.
    intros x Hx. apply H. now right.
Qed.


(** ** Calls to the installer collaborator *)

Lemma filter_install_free t : installer_free t -> filter is_install_event t = [].
Proof.
  induction 1 as [ | e t He _ IH ]; [ reflexivity | ].
  unfold is_installer_event in He. apply orb_false_iff in He as [_ Hi].
  simpl. now rewrite Hi.
Qed.

Lemma filter_lookup_free t : installer_free t -> filter is_lookup_event t = [].
Proof.
  induction 1 as [ | e t He _ IH ]; [ reflexivity | ].
  unfold is_installer_event in He. apply orb_false_iff in He as [Hl _].
  simpl. now rewrite Hl.
Qed.

Lemma cached_tier_install_calls h ad dir fr :
  filter is_install_event (trace (cached_tier h ad dir fr)) =
  if reaches_install h ad dir fr then [EvInstall dir false fr] else [].
Proof.
  unfold reaches_install. rewrite cached_tier_run.
  destruct ad, fr; cbn [andb negb orb];
    try (destruct (lookup_cached h dir); cbn [is_not_None negb]);
    rewrite ?download_tier_run; try reflexivity;
    cbn [trace fst]; rewrite ?download_tier_run;
    destruct (installer h dir false _); reflexivity.
Qed.

Lemma cached_tier_lookup_calls h ad dir fr :
  filter is_lookup_event (trace (cached_tier h ad dir fr)) =
  if ad && negb fr then [EvFindExisting dir] else [].
Proof.
  rewrite cached_tier_run.
  destruct ad, fr; cbn [andb negb];
    try (destruct (lookup_cached h dir));
    rewrite ?download_tier_run; try reflexivity;
    cbn [trace fst]; rewrite ?download_tier_run;
    destruct (installer h dir false _); reflexivity.
Qed.

Lemma cached_tier_outcome h ad dir fr :
  outcome (cached_tier h ad dir fr) =
  match (if ad && negb fr then lookup_cached h dir else None) with
  | Some p => Returned p
  | None => outcome (download_tier h ad dir fr)
  end.
Proof.
  rewrite cached_tier_run.
  destruct (ad && negb fr); [ | reflexivity ].
  now destruct (lookup_cached h dir).
Qed.

Lemma install_calls_past h allow_system ad dir fr :
  past_system h allow_system ->
  filter is_install_event (trace (get_chromium_install h allow_system ad dir fr)) =
  if reaches_install h ad dir fr then [EvInstall dir false fr] else [].
Proof.
  intros Hp. rewrite (get_chromium_install_past _ _ _ _ _ Hp). cbn [trace fst].
  rewrite filter_app, (filter_install_free _ (system_tier_trace_installer_free _ _)).
  apply cached_tier_install_calls.
Qed.

Lemma lookup_calls_past h allow_system ad dir fr :
  past_system h allow_system ->
  filter is_lookup_event (trace (get_chromium_install h allow_system ad dir fr)) =
  if ad && negb fr then [EvFindExisting dir] else [].
Proof.
  intros Hp. rewrite (get_chromium_install_past _ _ _ _ _ Hp). cbn [trace fst].
  rewrite filter_app, (filter_lookup_free _ (system_tier_trace_installer_free _ _)).
  apply cached_tier_lookup_calls.
Qed.

Lemma hit_installer_free h ad dir fr p :
  found_system h = Some p ->
  installer_free (trace (get_chromium_install h true ad dir fr)).
Proof.
  intros Hp. rewrite (get_chromium_install_hit _ _ _ _ _ Hp). cbn [trace fst].
  constructor; [ reflexivity | ].
  apply installer_free_app; [ apply find_system_chromium_installer_free | ].
  repeat constructor.
Qed.

(** ** The all-disallowed policy *)

(** C3.  With [allow_system = false] and [allow_download = false] the call
    raises the [ChromiumNotFoundError] of the final branch, whatever the
    install directory, the reinstall flag and the host are; the only thing
    it does before is to log: no probe call, no filesystem access and no
    installer call is made. *)
Theorem all_disallowed_fails_without_io (h : Host) (dir : option Path) (fr : bool) :
  let r := get_chromium_install h false false dir fr in
  outcome r = Raised (ChromiumNotFoundError msg_no_options None)
  /\ trace r = [EvLog ERROR "No Chromium browser found and installation is disallowed"]
  /\ count is_probe_event (trace r) = 0
  /\ count is_filesystem_event (trace r) = 0
  /\ count is_installer_event (trace r) = 0.
Proof. repeat split. Qed.

(** ** Installer failures *)

(** C4.  When the download tier is reached and the installer's install
    operation raises [e], the call raises a [ChromiumNotFoundError] whose
    cause is [e]; that error is not [e] itself; the install operation was
    called once, the cache lookup at most once, and the calls made are one
    pass over the system tier (when allowed), then the lookup (unless a
    reinstall is forced), then the install: nothing is tried again. *)
Theorem installer_failure_translated (h : Host) (allow_system : bool)
    (dir : option Path) (fr : bool) (e : PyException) :
  past_system h allow_system ->
  reaches_install h true dir fr = true ->
  installer h dir false fr = InstallFailed e ->
  let r := get_chromium_install h allow_system true dir fr in
  outcome r = Raised (ChromiumNotFoundError msg_download_failed (Some e))
  /\ outcome r <> Raised e
  /\ exc_cause (ChromiumNotFoundError msg_download_failed (Some e)) = Some e
  /\ count is_install_event (trace r) = 1
  /\ count is_lookup_event (trace r) = (if fr then 0 else 1)
  /\ trace r =
     (system_tier_trace h allow_system
      ++ (if fr then []
          else [EvLog DEBUG "Checking for existing portable Chromium installation...";
                EvFindExisting dir;
                EvLog DEBUG "No existing portable installation found"])
      ++ [EvLog INFO "Downloading portable Chromium..."; EvInstall dir false fr;
          EvLog ERROR "Failed to download Chromium: %s"])%list.
Proof.
  intros Hpast Hreach Hfail r.
  assert (Hout : outcome r = Raised (ChromiumNotFoundError msg_download_failed (Some e))).
  { subst r. rewrite (get_chromium_install_past _ _ _ _ _ Hpast). cbn [outcome snd].
    rewrite cached_tier_outcome, download_tier_run, Hfail.
    unfold reaches_install in Hreach. cbn [andb] in *.
    destruct fr; cbn [negb orb] in *; [ reflexivity | ].
    destruct (lookup_cached h dir); [ discriminate | reflexivity ]. }
  split; [ exact Hout | ].
  split.
  { rewrite Hout. intros H. injection H as H. exact (exc_not_own_cause _ _ _ H). }
  split; [ reflexivity | ].
  split.
  { unfold count. subst r. rewrite (install_calls_past _ _ _ _ _ Hpast), Hreach.
    reflexivity. }
  split.
  { unfold count. subst r. rewrite (lookup_calls_past _ _ _ _ _ Hpast).
    now destruct fr. }
  subst r. rewrite (get_chromium_install_past _ _ _ _ _ Hpast). cbn [trace fst].
  f_equal. rewrite cached_tier_run, download_tier_run, Hfail.
  unfold reaches_install in Hreach. cbn [andb] in *.
  destruct fr; cbn [negb orb] in *; [ reflexivity | ].
  destruct (lookup_cached h dir); [ discriminate | reflexivity ].
Qed.

Lemma installer_failure_translated_witness :
  outcome (get_chromium_install Hosts.linux_offline true true None false)
  = Raised (ChromiumNotFoundError msg_download_failed (Some Hosts.network_down)).
Proof.
  refine (proj1 (installer_failure_translated Hosts.linux_offline true None false
                   Hosts.network_down _ _ _)).
  - right. reflexivity.
  - reflexivity.
  - reflexivity.
Defined.

(** ** The cached portable install *)



(** ** Forced reinstall *)

(** C7.  A call with [allow_download = true] and [force_reinstall = true]
    that gets past the system tier never consults the cache lookup and calls
    the install operation, once, with the caller's directory,
    [clean_existing = false] and [force_reinstall = true]; and in any call
    whatsoever an install call carries the caller's directory, [false] and
    the caller's reinstall flag. *)
Theorem force_reinstall_skips_cache (h : Host) (allow_system : bool)
    (dir : option Path) :
  past_system h allow_system ->
  let r := get_chromium_install h allow_system true dir true in
  count is_lookup_event (trace r) = 0
  /\ filter is_install_event (trace r) = [EvInstall dir false true]
  /\ (forall allow_system' ad fr ev,
        In ev (trace (get_chromium_install h allow_system' ad dir fr)) ->
        is_install_event ev = true ->
        ev = EvInstall dir false fr).
Proof.
  intros Hpast r. subst r. split; [ | split ].
  - unfold count. now rewrite (lookup_calls_past _ _ _ _ _ Hpast).
  - now rewrite (install_calls_past _ _ _ _ _ Hpast).
  - intros a' ad fr ev Hin Hev.
    assert (Hf : In ev (filter is_install_event
                          (trace (get_chromium_install h a' ad dir fr)))).
    { apply filter_In. now split. }
    destruct (found_system_cases h a') as [ Hp | [p [-> Hp]] ].
    + rewrite (install_calls_past _ _ _ _ _ Hp) in Hf.
      destruct (reaches_install h ad dir fr); simpl in Hf; intuition congruence.
    + rewrite (filter_install_free _ (hit_installer_free h ad dir fr p Hp)) in Hf.
      destruct Hf.
Qed.

Lemma force_reinstall_skips_cache_witness :
  filter is_install_event
    (trace (get_chromium_install Hosts.linux_cached true true None true))
  = [EvInstall None false true].
Proof.
  refine (proj1 (proj2 (force_reinstall_skips_cache Hosts.linux_cached true None _))).
  right. reflexivity.
Defined.

(** ** Chrome before Edge *)




(** ** Failure messages *)

(** C2, as the specification states it, fails: on a host without a browser
    a call that tried the system tier and found nothing
    ([allow_system = true], [allow_download = false]) and a call that was
    allowed no tier at all raise the very same error, message included. *)
Lemma tried_and_disallowed_same_message :
  exists e,
    outcome (get_chromium_install Hosts.linux_bare true false None false) = Raised e
    /\ outcome (get_chromium_install Hosts.linux_bare false false None false) = Raised e
    /\ In (EvExists (Hosts.posix "/usr/bin/google-chrome"))
         (trace (get_chromium_install Hosts.linux_bare true false None false))
    /\ count is_probe_event
         (trace (get_chromium_install Hosts.linux_bare false false None false)) = 0.
Proof.
  exists (ChromiumNotFoundError msg_no_options None).
  repeat split. vm_compute. tauto.
Qed.

(** ** Absolute candidates *)



(** ** Regular files only *)

(** C8.  A candidate counts as found exactly when [exists()] and [is_file()]
    both hold of it, that is when it resolves to a regular file; a directory
    or a dangling link at a candidate's place is not found, and the search
    goes on with the candidates after it; a path returned by [find_chrome] or
    [find_edge] is a regular file; and when no Chrome candidate is found,
    [find_system_chromium] yields what the Edge candidates give. *)
Theorem detection_regular_files_only (h : Host) :
  (forall p,
     detected h p = true
     <-> node_exists (node_at h p) = true /\ node_is_file (node_at h p) = true)
  /\ (forall p, detected h p = true <-> node_at h p = RegularFile)
  /\ (forall p,
        node_at h p = Directory \/ node_at h p = BrokenSymlink -> detected h p = false)
  /\ (forall fmt pre p post,
        (forall q, In q pre -> node_at h q <> RegularFile) ->
        outcome (first_file h fmt (pre ++ p :: post))
        = match node_at h p with
          | RegularFile => Returned (Some p)
          | _ => outcome (first_file h fmt post)
          end)
  /\ (forall p, outcome (find_chrome h) = Returned (Some p) ->
                In p (chrome_candidates h) /\ node_at h p = RegularFile)
  /\ (forall p, outcome (find_edge h) = Returned (Some p) ->
                In p (edge_candidates h) /\ node_at h p = RegularFile)
  /\ ((forall c, In c (chrome_candidates h) -> node_at h c <> RegularFile) ->
      outcome (find_chrome h) = Returned None
      /\ outcome (find_system_chromium h) = Returned (found_edge h)).
Proof.
  split; [ intros p; unfold detected; apply andb_true_iff | ].
  split; [ intros p; apply detected_regular | ].
  split.
  { intros p [ H | H ]; unfold detected; rewrite H; reflexivity. }
  split.
  { intros fmt pre p post Hpre. rewrite !first_file_outcome.
    assert (Hf : find (detected h) (pre ++ p :: post)
                 = find (detected h) (p :: post)).
    { induction pre as [ | a pre IH ]; [ reflexivity | ].
      simpl. destruct (detected h a) eqn:D.
      - apply detected_regular in D. exfalso. apply (Hpre a); [ now left | exact D ].
      - apply IH. intros q Hq. apply Hpre. now right. }
    rewrite Hf. simpl. unfold detected at 1.
    destruct (node_at h p); reflexivity. }
  split.
  { intros p Hp. rewrite find_chrome_outcome in Hp. injection Hp as Hp.
    destruct (find_some _ _ Hp) as [Hin Hd]. split; [ exact Hin | ].
    now apply detected_regular. }
  split.
  { intros p Hp. rewrite find_edge_outcome in Hp. injection Hp as Hp.
    destruct (find_some _ _ Hp) as [Hin Hd]. split; [ exact Hin | ].
    now apply detected_regular. }
  intros Hno.
  assert (Hc : found_chrome h = None).
  { apply find_none_iff. intros x Hx. destruct (detected h x) eqn:D; [ | reflexivity ].
    apply detected_regular in D. now destruct (Hno x Hx). }
  split.
  - now rewrite find_chrome_outcome, Hc.
  - rewrite find_system_chromium_outcome. unfold found_system. now rewrite Hc.
Qed.

Lemma detection_regular_files_only_witness :
  detected Hosts.linux_dir (Hosts.posix "/usr/bin/google-chrome") = false
  /\ outcome (find_chrome Hosts.linux_dir) = Returned (Some (Hosts.posix "/usr/bin/chrome"))
  /\ outcome (find_system_chromium Hosts.linux_edge)
     = Returned (Some (Hosts.posix "/usr/bin/microsoft-edge")).
Proof.
  split; [ | split ].
  - refine (proj1 (proj2 (proj2 (detection_regular_files_only Hosts.linux_dir))) _ _).
    left. reflexivity.
  - change (outcome (find_chrome Hosts.linux_dir))
      with (outcome (first_file Hosts.linux_dir "Found Chrome at: %s"
                       ([Hosts.posix "/usr/bin/google-chrome";
                         Hosts.posix "/usr/bin/google-chrome-stable"]
                        ++ Hosts.posix "/usr/bin/chrome"
                        :: [Hosts.posix "/usr/local/bin/google-chrome";
                            Hosts.posix "/usr/local/bin/chrome";
                            Hosts.posix "/opt/google/chrome/chrome";
                            Hosts.posix "/snap/bin/chromium"]))).
    refine (proj1 (proj2 (proj2 (proj2 (detection_regular_files_only Hosts.linux_dir))))
              _ _ _ _ _).
    intros q [ <- | [ <- | [] ] ]; discriminate.
  - refine (proj2 (proj2 (proj2 (proj2 (proj2 (proj2 (proj2
              (detection_regular_files_only Hosts.linux_edge)))))) _)).
    intros c Hc. simpl in Hc.
    repeat (destruct Hc as [ <- | Hc ]; [ discriminate | ]). destruct Hc.
Defined.

(** ** The diagnostic operation *)


(** * Further properties of the two modules *)

(** ** Classes of calls *)

Lemma avoids_app f t1 t2 : avoids f t1 -> avoids f t2 -> avoids f (t1 ++ t2).
Proof. unfold avoids. intros. now apply Forall_app. Qed.

Lemma avoids_bind {A B} f (m : Run A) (k : A -> Run B) :
  avoids f (trace m) -> (forall a, avoids f (trace (k a))) -> avoids f (trace (bind m k)).
Proof.
  intros Hm Hk. rewrite trace_bind. apply avoids_app; [ assumption | ].
  destruct (outcome m); [ apply Hk | constructor ].
Qed.

Lemma filter_avoids f t : avoids f t -> filter f t = [].
Proof.
  induction 1 as [ | e t He _ IH ]; [ reflexivity | ]. simpl. now rewrite He.
Qed.

Lemma avoids_filter f t : filter f t = [] -> avoids f t.
Proof.
  induction t as [ | e t IH ]; [ constructor | ].
  simpl. destruct (f e) eqn:Fe; [ discriminate | ].
  intros H. constructor; [ exact Fe | now apply IH ].
Qed.

Lemma avoids_not_in f t e : avoids f t -> f e = true -> ~ In e t.
Proof.
  intros Ha Fe Hin. unfold avoids in Ha. rewrite Forall_forall in Ha.
  rewrite (Ha e Hin) in Fe. discriminate.
Qed.

Lemma installer_free_avoids t : installer_free t <-> avoids is_installer_event t.
Proof. reflexivity. Qed.

(** ** What the probe reads *)

Lemma get_chrome_paths_trace h :
  trace (get_chrome_paths h) =
  EvSystem ::
    (if system_name h =? "Windows"
     then [EvEnviron "PROGRAMFILES"; EvEnviron "PROGRAMFILES(X86)"; EvEnviron "LOCALAPPDATA"]
     else if system_name h =? "Darwin" then [EvHome] else []).
Proof.
  unfold get_chrome_paths. rewrite trace_bind, platform_system_run.
  cbn [trace fst outcome snd app].
  destruct (system_name h =? "Windows"); [ reflexivity | ].
  destruct (system_name h =? "Darwin"); [ reflexivity | ].
  destruct (system_name h =? "Linux"); reflexivity.
Qed.

Lemma get_edge_paths_trace h :
  trace (get_edge_paths h) =
  EvSystem ::
    (if system_name h =? "Windows"
     then [EvEnviron "PROGRAMFILES"; EvEnviron "PROGRAMFILES(X86)"]
     else if system_name h =? "Darwin" then [EvHome] else []).
Proof.
  unfold get_edge_paths. rewrite trace_bind, platform_system_run.
  cbn [trace fst outcome snd app].
  destruct (system_name h =? "Windows"); [ reflexivity | ].
  destruct (system_name h =? "Darwin"); [ reflexivity | ].
  destruct (system_name h =? "Linux"); reflexivity.
Qed.

(** X2.  The probe only reads: neither [get_chrome_paths] nor
    [get_edge_paths] looks at the filesystem or calls the installer; each
    asks for the platform name once, reads environment variables on Windows
    only and the home directory on macOS only. *)
Theorem probe_reads_no_filesystem (h : Host) :
  let tc := trace (get_chrome_paths h) in
  let te := trace (get_edge_paths h) in
  avoids is_filesystem_event (tc ++ te)
  /\ avoids is_installer_event (tc ++ te)
  /\ count is_system_event tc = 1 /\ count is_system_event te = 1
  /\ (count is_env_event tc = if system_name h =? "Windows" then 3 else 0)
  /\ (count is_env_event te = if system_name h =? "Windows" then 2 else 0)
  /\ (count is_home_event (tc ++ te) =
      if system_name h =? "Windows" then 0
      else if system_name h =? "Darwin" then 2 else 0).
Proof.
  cbv zeta. rewrite get_chrome_paths_trace, get_edge_paths_trace.
  destruct (system_name h =? "Windows");
    [ | destruct (system_name h =? "Darwin") ];
    repeat split; repeat constructor.
Qed.

(** ** The detection loop, call by call *)

Lemma first_file_filesystem_calls h fmt paths :
  filter is_filesystem_event (trace (first_file h fmt paths))
  = flat_map (probe_calls h) (examined h paths).
Proof.
  induction paths as [ | p rest IH ]; [ reflexivity | ].
  cbn [first_file examined]. unfold detected.
  rewrite trace_bind, path_exists_run. cbn [trace fst outcome snd].
  destruct (node_exists (node_at h p)) eqn:E; cbn [andb].
  - rewrite trace_bind, path_is_file_run. cbn [trace fst outcome snd].
    destruct (node_is_file (node_at h p)) eqn:F; cbn [flat_map];
      unfold probe_calls at 1; rewrite E.
    + reflexivity.
    + rewrite !filter_app, IH. reflexivity.
  - rewrite trace_bind. cbn [ret trace fst outcome snd flat_map].
    unfold probe_calls at 1. rewrite E.
    rewrite !filter_app, IH. reflexivity.
Qed.

Lemma examined_incl h paths p : In p (examined h paths) -> In p paths.
Proof.
  induction paths as [ | a rest IH ]; [ intros [] | ].
  simpl. destruct (detected h a).
  - intros [ <- | [] ]. now left.
  - intros [ <- | H ]; [ now left | right; now apply IH ].
Qed.

Lemma examined_split h paths p :
  find (detected h) paths = Some p ->
  exists pre post, paths = (pre ++ p :: post)%list /\ examined h paths = (pre ++ [p])%list.
Proof.
  induction paths as [ | a rest IH ]; [ discriminate | ].
  simpl. destruct (detected h a) eqn:D.
  - intros [= ->]. now exists [], rest.
  - intros H. destruct (IH H) as [pre [post [-> ->]]].
    now exists (a :: pre), post.
Qed.

Lemma examined_all h paths :
  find (detected h) paths = None -> examined h paths = paths.
Proof.
  induction paths as [ | a rest IH ]; [ reflexivity | ].
  simpl. destruct (detected h a); [ discriminate | ]. intros H. now rewrite IH.
Qed.

Lemma find_chrome_trace h :
  trace (find_chrome h) =
  (EvLog DEBUG "Searching for Google Chrome..."
     :: trace (get_chrome_paths h)
     ++ trace (first_file h "Found Chrome at: %s" (chrome_candidates h))
     ++ match found_chrome h with
        | Some _ => []
        | None => [EvLog DEBUG "Chrome not found"]
        end)%list.
Proof.
  unfold find_chrome, found_chrome.
  rewrite trace_bind, log_run. cbn [trace fst outcome snd app]. f_equal.
  rewrite trace_bind, get_chrome_paths_returns. f_equal.
  rewrite trace_bind, first_file_outcome. f_equal.
  now destruct (find _ _).
Qed.

Lemma find_edge_trace h :
  trace (find_edge h) =
  (EvLog DEBUG "Searching for Microsoft Edge..."
     :: trace (get_edge_paths h)
     ++ trace (first_file h "Found Edge at: %s" (edge_candidates h))
     ++ match found_edge h with
        | Some _ => []
        | None => [EvLog DEBUG "Edge not found"]
        end)%list.
Proof.
  unfold find_edge, found_edge.
  rewrite trace_bind, log_run. cbn [trace fst outcome snd app]. f_equal.
  rewrite trace_bind, get_edge_paths_returns. f_equal.
  rewrite trace_bind, first_file_outcome. f_equal.
  now destruct (find _ _).
Qed.

Lemma probe_trace_no_filesystem_chrome h :
  filter is_filesystem_event (trace (get_chrome_paths h)) = [].
Proof.
  rewrite get_chrome_paths_trace.
  destruct (_ =? "Windows"); [ reflexivity | ]. now destruct (_ =? "Darwin").
Qed.

Lemma probe_trace_no_filesystem_edge h :
  filter is_filesystem_event (trace (get_edge_paths h)) = [].
Proof.
  rewrite get_edge_paths_trace.
  destruct (_ =? "Windows"); [ reflexivity | ]. now destruct (_ =? "Darwin").
Qed.

Lemma find_chrome_filesystem_calls h :
  filter is_filesystem_event (trace (find_chrome h))
  = flat_map (probe_calls h) (examined h (chrome_candidates h)).
Proof.
  rewrite find_chrome_trace. cbn [filter is_filesystem_event].
  rewrite !filter_app, probe_trace_no_filesystem_chrome, first_file_filesystem_calls.
  cbn [app]. destruct (found_chrome h); cbn [filter is_filesystem_event];
    now rewrite app_nil_r.
Qed.

Lemma find_edge_filesystem_calls h :
  filter is_filesystem_event (trace (find_edge h))
  = flat_map (probe_calls h) (examined h (edge_candidates h)).
Proof.
  rewrite find_edge_trace. cbn [filter is_filesystem_event].
  rewrite !filter_app, probe_trace_no_filesystem_edge, first_file_filesystem_calls.
  cbn [app]. destruct (found_edge h); cbn [filter is_filesystem_event];
    now rewrite app_nil_r.
Qed.

(** X7.  [find_chrome] and [find_edge] touch the filesystem only through
    their candidates, in order, and stop at the first one found: every
    candidate up to and including that one gets one [exists()] call,
    followed by one [is_file()] call when it exists; the candidates after
    the one found get no call; when nothing is found every candidate was
    looked at. *)
Theorem detection_stops_at_first_hit (h : Host) :
  filter is_filesystem_event (trace (find_chrome h))
  = flat_map (probe_calls h) (examined h (chrome_candidates h))
  /\ filter is_filesystem_event (trace (find_edge h))
     = flat_map (probe_calls h) (examined h (edge_candidates h))
  /\ (forall paths p,
        find (detected h) paths = Some p ->
        exists pre post,
          paths = (pre ++ p :: post)%list /\ examined h paths = (pre ++ [p])%list)
  /\ (forall paths, find (detected h) paths = None -> examined h paths = paths).
Proof.
  split; [ apply find_chrome_filesystem_calls | ].
  split; [ apply find_edge_filesystem_calls | ].
  split; [ apply examined_split | apply examined_all ].
Qed.

Lemma detection_stops_at_first_hit_witness :
  exists pre post,
    chrome_candidates Hosts.linux_dir
    = (pre ++ Hosts.posix "/usr/bin/chrome" :: post)%list
    /\ examined Hosts.linux_dir (chrome_candidates Hosts.linux_dir)
       = (pre ++ [Hosts.posix "/usr/bin/chrome"])%list.
Proof.
  refine (proj1 (proj2 (proj2 (detection_stops_at_first_hit Hosts.linux_dir))) _ _ _).
  reflexivity.
Defined.

(** ** The system tier, call by call *)

Lemma find_system_chromium_trace h :
  trace (find_system_chromium h) =
  (EvLog DEBUG "Searching for system Chromium browsers..."
     :: trace (find_chrome h)
     ++ match found_chrome h with
        | Some _ => [EvLog INFO "Using Chrome as preferred browser"]
        | None =>
            trace (find_edge h)
            ++ match found_edge h with
               | Some _ => [EvLog INFO "Using Edge as fallback browser"]
               | None => [EvLog WARNING "No Chromium-based browser found on system"]
               end
        end)%list.
Proof.
  unfold find_system_chromium.
  rewrite trace_bind, log_run. cbn [trace fst outcome snd app]. f_equal.
  rewrite trace_bind, find_chrome_outcome. f_equal.
  destruct (found_chrome h); [ reflexivity | ].
  rewrite trace_bind, find_edge_outcome. f_equal.
  now destruct (found_edge h).
Qed.

Lemma find_system_chromium_filesystem_calls h :
  filter is_filesystem_event (trace (find_system_chromium h))
  = (flat_map (probe_calls h) (examined h (chrome_candidates h))
     ++ match found_chrome h with
        | Some _ => []
        | None => flat_map (probe_calls h) (examined h (edge_candidates h))
        end)%list.
Proof.
  rewrite find_system_chromium_trace. cbn [filter is_filesystem_event].
  rewrite filter_app, find_chrome_filesystem_calls. f_equal.
  destruct (found_chrome h); [ reflexivity | ].
  rewrite filter_app, find_edge_filesystem_calls.
  destruct (found_edge h); cbn [filter is_filesystem_event]; now rewrite app_nil_r.
Qed.

Lemma in_probe_calls h ev l :
  In ev (flat_map (probe_calls h) l) ->
  exists p, In p l /\ (ev = EvExists p \/ ev = EvIsFile p).
Proof.
  intros Hin. apply in_flat_map in Hin as [p [Hp Hev]]. exists p. split; [ exact Hp | ].
  unfold probe_calls in Hev. destruct Hev as [ <- | Hev ]; [ now left | ].
  destruct (node_exists (node_at h p)); [ | destruct Hev ].
  destruct Hev as [ <- | [] ]. now right.
Qed.

Lemma recognized_false s :
  recognized s = false ->
  (s =? "Windows") = false /\ (s =? "Darwin") = false /\ (s =? "Linux") = false.
Proof.
  unfold recognized. intros H.
  apply orb_false_iff in H as [H H3]. apply orb_false_iff in H as [H1 H2]. auto.
Qed.

(** X1.  On a platform that is none of Windows, Darwin and Linux (the
    comparison is exact, case included) both candidate lists are empty;
    [find_system_chromium] then yields nothing without a single filesystem
    call, whatever files the machine holds, and a resolution that may not
    download fails with the error of the final branch. *)
Theorem unrecognized_platform_finds_nothing (h : Host) :
  recognized (system_name h) = false ->
  chrome_candidates h = [] /\ edge_candidates h = []
  /\ outcome (find_system_chromium h) = Returned None
  /\ filter is_filesystem_event (trace (find_system_chromium h)) = []
  /\ (forall allow_system dir fr,
        outcome (get_chromium_install h allow_system false dir fr)
        = Raised (ChromiumNotFoundError msg_no_options None)).
Proof.
  intros Hrec. destruct (recognized_false _ Hrec) as [Hw [Hd Hl]].
  assert (Hc : chrome_candidates h = []).
  { unfold chrome_candidates, candidates_of, get_chrome_paths. run_step.
    now rewrite Hw, Hd, Hl. }
  assert (He : edge_candidates h = []).
  { unfold edge_candidates, candidates_of, get_edge_paths. run_step.
    now rewrite Hw, Hd, Hl. }
  assert (Hs : found_system h = None).
  { unfold found_system, found_chrome, found_edge. now rewrite Hc, He. }
  split; [ exact Hc | ]. split; [ exact He | ].
  split; [ now rewrite find_system_chromium_outcome, Hs | ].
  split.
  { rewrite find_system_chromium_filesystem_calls. unfold found_chrome.
    now rewrite Hc, He. }
  intros allow_system dir fr.
  assert (Hp : past_system h allow_system) by now right.
  now rewrite (get_chromium_install_past _ _ _ _ _ Hp).
Qed.

Lemma unrecognized_platform_finds_nothing_witness :
  node_at MoreHosts.freebsd (Hosts.posix "/usr/bin/google-chrome") = RegularFile
  /\ outcome (find_system_chromium MoreHosts.freebsd) = Returned None.
Proof.
  split; [ reflexivity | ].
  refine (proj1 (proj2 (proj2 (unrecognized_platform_finds_nothing MoreHosts.freebsd _)))).
  reflexivity.
Defined.

(** X3.  Whenever [find_system_chromium] yields a path, a resolution with
    [allow_system = true] returns that path whatever the download policy,
    the install directory and the reinstall flag are, makes no call to the
    installer collaborator, and makes the same calls for every such
    setting. *)
Theorem system_hit_ignores_download_policy (h : Host) (p : Path) :
  outcome (find_system_chromium h) = Returned (Some p) ->
  forall ad dir fr,
    outcome (get_chromium_install h true ad dir fr) = Returned p
    /\ avoids is_installer_event (trace (get_chromium_install h true ad dir fr))
    /\ get_chromium_install h true ad dir fr = get_chromium_install h true false None false.
Proof.
  intros Hout ad dir fr.
  rewrite find_system_chromium_outcome in Hout. injection Hout as Hs.
  split; [ now rewrite (get_chromium_install_hit _ _ _ _ _ Hs) | ].
  split; [ exact (hit_installer_free h ad dir fr p Hs) | ].
  now rewrite !(get_chromium_install_hit _ _ _ _ _ Hs).
Qed.

Lemma system_hit_ignores_download_policy_witness :
  outcome (get_chromium_install Hosts.linux_edge true true None true)
  = Returned (Hosts.posix "/usr/bin/microsoft-edge").
Proof.
  refine (proj1 (system_hit_ignores_download_policy Hosts.linux_edge
                   (Hosts.posix "/usr/bin/microsoft-edge") _ true None true)).
  reflexivity.
Defined.

(** X4.  When Chrome is found, [find_system_chromium] does not run the Edge
    search at all: its calls are those of [find_chrome] between two log
    lines, and no Edge candidate gets an [exists()] or [is_file()] call. *)
Theorem chrome_found_skips_edge_search (h : Host) (p : Path) :
  outcome (find_chrome h) = Returned (Some p) ->
  trace (find_system_chromium h)
  = (EvLog DEBUG "Searching for system Chromium browsers..."
       :: trace (find_chrome h) ++ [EvLog INFO "Using Chrome as preferred browser"])%list
  /\ (forall e, In e (edge_candidates h) ->
        ~ In (EvExists e) (trace (find_system_chromium h))
        /\ ~ In (EvIsFile e) (trace (find_system_chromium h))).
Proof.
  intros Hout. rewrite find_chrome_outcome in Hout. injection Hout as Hc.
  split; [ now rewrite find_system_chromium_trace, Hc | ].
  assert (Hfs : forall ev, is_filesystem_event ev = true ->
                  In ev (trace (find_system_chromium h)) ->
                  exists q, In q (chrome_candidates h)
                            /\ (ev = EvExists q \/ ev = EvIsFile q)).
  { intros ev Hev Hin.
    assert (Hf : In ev (filter is_filesystem_event (trace (find_system_chromium h))))
      by (apply filter_In; now split).
    rewrite find_system_chromium_filesystem_calls, Hc, app_nil_r in Hf.
    destruct (in_probe_calls _ _ _ Hf) as [q [Hq Hq']].
    exists q. split; [ exact (examined_incl _ _ _ Hq) | exact Hq' ]. }
  intros e He. split; intros Hin.
  - destruct (Hfs (EvExists e) eq_refl Hin) as [q [Hq [Heq | Heq]]];
      [ injection Heq as <- | discriminate ].
    exact (candidates_disjoint h e Hq He).
  - destruct (Hfs (EvIsFile e) eq_refl Hin) as [q [Hq [Heq | Heq]]];
      [ discriminate | injection Heq as <- ].
    exact (candidates_disjoint h e Hq He).
Qed.

Lemma chrome_found_skips_edge_search_witness :
  ~ In (EvExists (Hosts.posix "/usr/bin/microsoft-edge"))
      (trace (find_system_chromium Hosts.linux_both)).
Proof.
  refine (proj1 (proj2 (chrome_found_skips_edge_search Hosts.linux_both
                          (Hosts.posix "/usr/bin/google-chrome-stable") _)
                   (Hosts.posix "/usr/bin/microsoft-edge") _)).
  - reflexivity.
  - simpl. left. reflexivity.
Defined.

(** ** The diagnostic dictionary *)


(** X15.  The dictionary [get_chromium_info] returns is consistent: a
    browser has a path exactly when it is marked available, [preferred] is
    present exactly when [any_available] holds, [any_available] is the
    disjunction of the two availabilities, and [preferred] is Chrome's path
    when Chrome is available and Edge's path (possibly absent) otherwise. *)
Theorem info_dictionary_consistent (h : Host) :
  exists info,
    outcome (get_chromium_info h) = Returned info
    /\ available (chrome info) = is_not_None (path (chrome info))
    /\ available (edge info) = is_not_None (path (edge info))
    /\ any_available info = is_not_None (preferred info)
    /\ any_available info = available (chrome info) || available (edge info)
    /\ preferred info
       = (if available (chrome info) then path (chrome info) else path (edge info)).
Proof.
  eexists. split.
  { unfold get_chromium_info. run_step. rewrite find_chrome_outcome. run_step.
    rewrite find_edge_outcome. reflexivity. }
  cbn [chrome edge available path any_available preferred].
  destruct (found_chrome h), (found_edge h); repeat split.
Qed.

(** ** The resolver as a whole *)

Lemma cached_tier_avoids_probes h ad dir fr :
  avoids is_probe_event (trace (cached_tier h ad dir fr)).
Proof.
  rewrite cached_tier_run.
  destruct (ad && negb fr); [ destruct (lookup_cached h dir) | ];
    rewrite ?download_tier_run; cbn [trace fst];
    try (destruct ad; [ destruct (installer h dir false fr) | ]);
    repeat constructor.
Qed.

Lemma cached_tier_installer_calls h ad dir fr :
  filter is_installer_event (trace (cached_tier h ad dir fr))
  = ((if ad && negb fr then [EvFindExisting dir] else [])
     ++ (if reaches_install h ad dir fr then [EvInstall dir false fr] else []))%list.
Proof.
  unfold reaches_install. rewrite cached_tier_run.
  destruct ad, fr; cbn [andb negb orb];
    try (destruct (lookup_cached h dir); cbn [is_not_None negb]);
    rewrite ?download_tier_run; try reflexivity;
    cbn [trace fst]; rewrite ?download_tier_run;
    destruct (installer h dir false _); reflexivity.
Qed.

Lemma installer_calls h allow_system ad dir fr :
  filter is_installer_event (trace (get_chromium_install h allow_system ad dir fr))
  = (if allow_system && is_not_None (found_system h) then []
     else (if ad && negb fr then [EvFindExisting dir] else [])
          ++ (if reaches_install h ad dir fr then [EvInstall dir false fr] else []))%list.
Proof.
  destruct (found_system_cases h allow_system) as [ Hp | [p [-> Hp]] ].
  - assert (Hn : allow_system && is_not_None (found_system h) = false).
    { destruct Hp as [ -> | -> ]; [ reflexivity | apply andb_false_r ]. }
    rewrite Hn, (get_chromium_install_past _ _ _ _ _ Hp). cbn [trace fst].
    rewrite filter_app, (filter_avoids _ _ (system_tier_trace_installer_free _ _)).
    apply cached_tier_installer_calls.
  - rewrite Hp. cbn [andb is_not_None].
    apply filter_avoids. exact (hit_installer_free h ad dir fr p Hp).
Qed.

Lemma outcome_is_resolution h allow_system ad dir fr :
  outcome (get_chromium_install h allow_system ad dir fr)
  = resolution h allow_system ad dir fr.
Proof.
  unfold resolution.
  change (match find (detected h) (chrome_candidates h) with
          | Some c => Some c
          | None => find (detected h) (edge_candidates h)
          end) with (found_system h).
  destruct (found_system_cases h allow_system) as [ Hp | [p [-> Hp]] ].
  - rewrite (get_chromium_install_past _ _ _ _ _ Hp). cbn [outcome snd].
    rewrite cached_tier_outcome, download_tier_run.
    assert (Hn : (if allow_system then found_system h else None) = None).
    { destruct allow_system; [ | reflexivity ]. now destruct Hp. }
    rewrite Hn.
    destruct (if ad && negb fr then lookup_cached h dir else None); [ reflexivity | ].
    destruct ad; [ | reflexivity ]. now destruct (installer h dir false fr).
  - rewrite (get_chromium_install_hit _ _ _ _ _ Hp), Hp. reflexivity.
Qed.


(** X12.  The tiers run one after the other: the calls of a resolution are
    a first stretch without any call to the installer collaborator followed
    by a second stretch without any call to the platform, the environment
    or the filesystem.  Nothing is probed once the installer was asked. *)
Theorem probes_precede_installer_calls (h : Host) (allow_system ad : bool)
    (dir : option Path) (fr : bool) :
  exists t1 t2,
    trace (get_chromium_install h allow_system ad dir fr) = (t1 ++ t2)%list
    /\ avoids is_installer_event t1
    /\ avoids is_probe_event t2.
Proof.
  destruct (found_system_cases h allow_system) as [ Hp | [p [-> Hp]] ].
  - exists (system_tier_trace h allow_system), (trace (cached_tier h ad dir fr)).
    split; [ now rewrite (get_chromium_install_past _ _ _ _ _ Hp) | ].
    split; [ apply system_tier_trace_installer_free | apply cached_tier_avoids_probes ].
  - exists (trace (get_chromium_install h true ad dir fr)), [].
    split; [ now rewrite app_nil_r | ].
    split; [ exact (hit_installer_free h ad dir fr p Hp) | constructor ].
Qed.

(** X6.  With [allow_system = false] nothing is probed: no platform,
    environment or filesystem call is made, and the whole run (calls and
    result) is the same on any two hosts whose installer collaborator
    answers alike, whatever browsers they hold. *)
Theorem system_disallowed_never_probes (h h' : Host) (ad : bool)
    (dir : option Path) (fr : bool) :
  lookup_cached h dir = lookup_cached h' dir ->
  installer h dir false fr = installer h' dir false fr ->
  avoids is_probe_event (trace (get_chromium_install h false ad dir fr))
  /\ get_chromium_install h false ad dir fr = get_chromium_install h' false ad dir fr.
Proof.
  intros Hl Hi.
  change (get_chromium_install h false ad dir fr) with (cached_tier h ad dir fr).
  change (get_chromium_install h' false ad dir fr) with (cached_tier h' ad dir fr).
  split; [ apply cached_tier_avoids_probes | ].
  rewrite !cached_tier_run, !download_tier_run, Hl, Hi. reflexivity.
Qed.

Lemma system_disallowed_never_probes_witness :
  get_chromium_install Hosts.linux_both false true None false
  = get_chromium_install Hosts.linux_bare false true None false.
Proof.
  refine (proj2 (system_disallowed_never_probes Hosts.linux_both Hosts.linux_bare
                   true None false _ _)); reflexivity.
Defined.

(** X8.  With [allow_download = false] the installer collaborator is never
    called, neither its lookup nor its install operation, and the run does
    not depend on the install directory or on the reinstall flag. *)
Theorem download_disallowed_never_calls_installer (h : Host) (allow_system : bool)
    (dir : option Path) (fr : bool) :
  avoids is_installer_event (trace (get_chromium_install h allow_system false dir fr))
  /\ (forall dir' fr',
        get_chromium_install h allow_system false dir fr
        = get_chromium_install h allow_system false dir' fr').
Proof.
  split.
  - apply avoids_filter. rewrite installer_calls.
    destruct (allow_system && is_not_None (found_system h)); reflexivity.
  - intros dir' fr'. unfold get_chromium_install.
    assert (Hc : forall d f, cached_tier h false d f = cached_tier h false None false)
      by reflexivity.
    now rewrite (Hc dir fr), (Hc dir' fr').
Qed.

(** X9.  A resolution that may not download returns only what the system
    search found: when it returns a path, the system tier was allowed, the
    path is the one [find_system_chromium] yields, it is one of the
    candidates of the probe, and it is a regular file on the host. *)
Theorem system_only_returns_regular_file (h : Host) (allow_system : bool)
    (dir : option Path) (fr : bool) (p : Path) :
  outcome (get_chromium_install h allow_system false dir fr) = Returned p ->
  allow_system = true
  /\ outcome (find_system_chromium h) = Returned (Some p)
  /\ In p (chrome_candidates h ++ edge_candidates h)
  /\ node_at h p = RegularFile.
Proof.
  intros Hout.
  destruct (found_system_cases h allow_system) as [ Hp | [q [-> Hq]] ].
  - rewrite (get_chromium_install_past _ _ _ _ _ Hp) in Hout. discriminate.
  - rewrite (get_chromium_install_hit _ _ _ _ _ Hq) in Hout. injection Hout as ->.
    split; [ reflexivity | ].
    split; [ now rewrite find_system_chromium_outcome, Hq | ].
    unfold found_system, found_chrome, found_edge in Hq.
    destruct (find (detected h) (chrome_candidates h)) as [ c | ] eqn:Ec.
    + injection Hq as ->. destruct (find_some _ _ Ec) as [Hin Hd].
      split; [ apply in_or_app; now left | now apply detected_regular ].
    + destruct (find_some _ _ Hq) as [Hin Hd].
      split; [ apply in_or_app; now right | now apply detected_regular ].
Qed.

Lemma system_only_returns_regular_file_witness :
  node_at Hosts.linux_both (Hosts.posix "/usr/bin/google-chrome-stable") = RegularFile.
Proof.
  refine (proj2 (proj2 (proj2 (system_only_returns_regular_file Hosts.linux_both true
                                 None false _ _)))).
  reflexivity.
Defined.

(** X10.  When the download tier is reached and the install operation
    yields a path, the resolution returns that path unchanged, after exactly
    one install call with the caller's directory, [clean_existing = false]
    and the caller's reinstall flag. *)
Theorem installed_path_returned (h : Host) (allow_system : bool)
    (dir : option Path) (fr : bool) (p : Path) :
  past_system h allow_system ->
  reaches_install h true dir fr = true ->
  installer h dir false fr = Installed p ->
  outcome (get_chromium_install h allow_system true dir fr) = Returned p
  /\ filter is_install_event (trace (get_chromium_install h allow_system true dir fr))
     = [EvInstall dir false fr].
Proof.
  intros Hpast Hreach Hinst. split.
  - rewrite (get_chromium_install_past _ _ _ _ _ Hpast). cbn [outcome snd].
    rewrite cached_tier_outcome, download_tier_run, Hinst.
    unfold reaches_install in Hreach. cbn [andb] in *.
    destruct fr; cbn [negb orb] in *; [ reflexivity | ].
    destruct (lookup_cached h dir); [ discriminate | reflexivity ].
  - now rewrite (install_calls_past _ _ _ _ _ Hpast), Hreach.
Qed.

Lemma installed_path_returned_witness :
  outcome (get_chromium_install Hosts.linux_bare false true None false)
  = Returned Hosts.portable.
Proof.
  refine (proj1 (installed_path_returned Hosts.linux_bare false None false
                   Hosts.portable _ _ _)).
  - left. reflexivity.
  - reflexivity.
  - reflexivity.
Defined.


(** * The same code when probes fail *)

(** ** The fallible primitives *)

Lemma fallible_path_exists_run w p :
  Fallible.path_exists w p =
  ([EvExists p],
   match Fallible.stat_error w p with
   | Some e => Raised e
   | None => Returned (node_exists (node_at (Fallible.host w) p))
   end).
Proof. unfold Fallible.path_exists. now destruct (Fallible.stat_error w p). Qed.

Lemma fallible_path_is_file_run w p :
  Fallible.path_is_file w p =
  ([EvIsFile p],
   match Fallible.stat_error w p with
   | Some e => Raised e
   | None => Returned (node_is_file (node_at (Fallible.host w) p))
   end).
Proof. unfold Fallible.path_is_file. now destruct (Fallible.stat_error w p). Qed.

Lemma fallible_Path_home_run w :
  Fallible.Path_home w =
  ([EvHome],
   if Str.starts_with_char "~" (home_dir (Fallible.host w))
   then Raised Fallible.home_unknown
   else Returned (Path_ (Fallible.host w) (home_dir (Fallible.host w)))).
Proof.
  unfold Fallible.Path_home. now destruct (Str.starts_with_char _ _).
Qed.

Lemma bind_congr {A B} (m : Run A) (k1 k2 : A -> Run B) :
  (forall a, outcome m = Returned a -> k1 a = k2 a) -> bind m k1 = bind m k2.
Proof.
  destruct m as [t [a | e]]; intros H; [ | reflexivity ].
  unfold bind. now rewrite (H a eq_refl).
Qed.

(** ** Where the two embeddings agree *)

Lemma fallible_first_file_answers w fmt paths :
  (forall p, In p paths -> Fallible.stat_error w p = None) ->
  Fallible.first_file w fmt paths = first_file (Fallible.host w) fmt paths.
Proof.
  induction paths as [ | p rest IH ]; intros H; [ reflexivity | ].
  cbn [Fallible.first_file first_file].
  rewrite fallible_path_exists_run, fallible_path_is_file_run, path_exists_run,
    path_is_file_run, (H p (or_introl eq_refl)), IH; [ reflexivity | ].
  intros q Hq. apply H. now right.
Qed.

(** The probe fails on macOS without a home directory and nowhere else. *)
Lemma fallible_get_chrome_paths_cases w :
  Fallible.get_chrome_paths w = get_chrome_paths (Fallible.host w)
  \/ (system_name (Fallible.host w) = "Darwin"
      /\ Str.starts_with_char "~" (home_dir (Fallible.host w)) = true
      /\ Fallible.get_chrome_paths w = ([EvSystem; EvHome], Raised Fallible.home_unknown)).
Proof.
  unfold Fallible.get_chrome_paths, get_chrome_paths.
  rewrite fallible_Path_home_run, Path_home_run, platform_system_run.
  destruct (Str.starts_with_char "~" (home_dir (Fallible.host w))) eqn:Eh;
    [ | now left ].
  destruct (system_name (Fallible.host w) =? "Darwin") eqn:Ed.
  - right. apply String.eqb_eq in Ed. rewrite Ed. now repeat split.
  - left. apply bind_congr. intros a [= <-].
    destruct (_ =? "Windows"); [ reflexivity | ]. now rewrite Ed.
Qed.

Lemma fallible_get_edge_paths_cases w :
  Fallible.get_edge_paths w = get_edge_paths (Fallible.host w)
  \/ (system_name (Fallible.host w) = "Darwin"
      /\ Str.starts_with_char "~" (home_dir (Fallible.host w)) = true
      /\ Fallible.get_edge_paths w = ([EvSystem; EvHome], Raised Fallible.home_unknown)).
Proof.
  unfold Fallible.get_edge_paths, get_edge_paths.
  rewrite fallible_Path_home_run, Path_home_run, platform_system_run.
  destruct (Str.starts_with_char "~" (home_dir (Fallible.host w))) eqn:Eh;
    [ | now left ].
  destruct (system_name (Fallible.host w) =? "Darwin") eqn:Ed.
  - right. apply String.eqb_eq in Ed. rewrite Ed. now repeat split.
  - left. apply bind_congr. intros a [= <-].
    destruct (_ =? "Windows"); [ reflexivity | ]. now rewrite Ed.
Qed.

Lemma fallible_get_chrome_paths_answers w :
  Str.starts_with_char "~" (home_dir (Fallible.host w)) = false ->
  Fallible.get_chrome_paths w = get_chrome_paths (Fallible.host w).
Proof.
  intros H. destruct (fallible_get_chrome_paths_cases w) as [ E | [_ [E _]] ];
    [ exact E | congruence ].
Qed.

Lemma fallible_get_edge_paths_answers w :
  Str.starts_with_char "~" (home_dir (Fallible.host w)) = false ->
  Fallible.get_edge_paths w = get_edge_paths (Fallible.host w).
Proof.
  intros H. destruct (fallible_get_edge_paths_cases w) as [ E | [_ [E _]] ];
    [ exact E | congruence ].
Qed.

Lemma fallible_find_chrome_answers w :
  Fallible.answers w -> Fallible.find_chrome w = find_chrome (Fallible.host w).
Proof.
  intros [Hs Hh]. unfold Fallible.find_chrome, find_chrome.
  rewrite (fallible_get_chrome_paths_answers w Hh).
  apply bind_congr. intros _ _. apply bind_congr. intros paths _.
  rewrite fallible_first_file_answers; [ reflexivity | intros p _; apply Hs ].
Qed.

Lemma fallible_find_edge_answers w :
  Fallible.answers w -> Fallible.find_edge w = find_edge (Fallible.host w).
Proof.
  intros [Hs Hh]. unfold Fallible.find_edge, find_edge.
  rewrite (fallible_get_edge_paths_answers w Hh).
  apply bind_congr. intros _ _. apply bind_congr. intros paths _.
  rewrite fallible_first_file_answers; [ reflexivity | intros p _; apply Hs ].
Qed.

Lemma fallible_find_system_chromium_answers w :
  Fallible.answers w ->
  Fallible.find_system_chromium w = find_system_chromium (Fallible.host w).
Proof.
  intros Ha. unfold Fallible.find_system_chromium, find_system_chromium.
  now rewrite (fallible_find_chrome_answers w Ha), (fallible_find_edge_answers w Ha).
Qed.

Lemma fallible_get_chromium_install_answers w allow_system ad dir fr :
  allow_system = false \/ Fallible.answers w ->
  Fallible.get_chromium_install w allow_system ad dir fr
  = get_chromium_install (Fallible.host w) allow_system ad dir fr.
Proof.
  intros [ -> | Ha ]; [ reflexivity | ].
  unfold Fallible.get_chromium_install, get_chromium_install.
  now rewrite (fallible_find_system_chromium_answers w Ha).
Qed.

(** ** Where errors come from *)

Lemma fallible_first_file_raises w fmt paths e :
  outcome (Fallible.first_file w fmt paths) = Raised e ->
  exists p, In p paths /\ Fallible.stat_error w p = Some e.
Proof.
  induction paths as [ | p rest IH ]; [ discriminate | ].
  cbn [Fallible.first_file].
  rewrite outcome_bind, fallible_path_exists_run. cbn [outcome snd].
  destruct (Fallible.stat_error w p) as [ e0 | ] eqn:Es.
  - intros [= <-]. exists p. split; [ now left | exact Es ].
  - destruct (node_exists (node_at (Fallible.host w) p)).
    + rewrite outcome_bind, fallible_path_is_file_run, Es. cbn [outcome snd].
      destruct (node_is_file (node_at (Fallible.host w) p)); [ discriminate | ].
      intros H. destruct (IH H) as [q [Hq Hs]]. exists q. split; [ now right | exact Hs ].
    + rewrite outcome_bind. cbn [ret outcome snd].
      intros H. destruct (IH H) as [q [Hq Hs]]. exists q. split; [ now right | exact Hs ].
Qed.

Lemma fallible_find_chrome_raises w e :
  outcome (Fallible.find_chrome w) = Raised e -> Fallible.probe_error w e.
Proof.
  unfold Fallible.find_chrome. run_step.
  destruct (fallible_get_chrome_paths_cases w) as [ -> | [_ [Hh ->]] ].
  - rewrite get_chrome_paths_returns. rewrite outcome_bind.
    destruct (outcome (Fallible.first_file w _ _)) as [ [ p | ] | e0 ] eqn:Ef;
      cbn [ret outcome snd]; run_step; try discriminate.
    intros [= <-]. right.
    destruct (fallible_first_file_raises _ _ _ _ Ef) as [p [_ Hp]]. now exists p.
  - cbn [outcome snd]. intros [= <-]. left. now split.
Qed.

Lemma fallible_find_edge_raises w e :
  outcome (Fallible.find_edge w) = Raised e -> Fallible.probe_error w e.
Proof.
  unfold Fallible.find_edge. run_step.
  destruct (fallible_get_edge_paths_cases w) as [ -> | [_ [Hh ->]] ].
  - rewrite get_edge_paths_returns. rewrite outcome_bind.
    destruct (outcome (Fallible.first_file w _ _)) as [ [ p | ] | e0 ] eqn:Ef;
      cbn [ret outcome snd]; run_step; try discriminate.
    intros [= <-]. right.
    destruct (fallible_first_file_raises _ _ _ _ Ef) as [p [_ Hp]]. now exists p.
  - cbn [outcome snd]. intros [= <-]. left. now split.
Qed.

Lemma fallible_find_system_chromium_raises w e :
  outcome (Fallible.find_system_chromium w) = Raised e -> Fallible.probe_error w e.
Proof.
  unfold Fallible.find_system_chromium. run_step.
  destruct (outcome (Fallible.find_chrome w)) as [ [ p | ] | e0 ] eqn:Ec.
  - run_step. discriminate.
  - run_step.
    destruct (outcome (Fallible.find_edge w)) as [ [ p | ] | e0 ] eqn:Ee;
      run_step; try discriminate.
    intros [= <-]. exact (fallible_find_edge_raises _ _ Ee).
  - intros [= <-]. exact (fallible_find_chrome_raises _ _ Ec).
Qed.

(** The resolver over a fallible world, by what its system tier does. *)
Lemma fallible_get_chromium_install_outcome w allow_system ad dir fr :
  outcome (Fallible.get_chromium_install w allow_system ad dir fr) =
  if allow_system then
    match outcome (Fallible.find_system_chromium w) with
    | Returned (Some p) => Returned p
    | Returned None => outcome (cached_tier (Fallible.host w) ad dir fr)
    | Raised e => Raised e
    end
  else outcome (cached_tier (Fallible.host w) ad dir fr).
Proof.
  unfold Fallible.get_chromium_install. destruct allow_system; [ | reflexivity ].
  run_step. destruct (outcome (Fallible.find_system_chromium w)) as [ [ p | ] | e ];
    now run_step.
Qed.

Lemma fallible_get_chromium_install_trace w allow_system ad dir fr :
  trace (Fallible.get_chromium_install w allow_system ad dir fr) =
  if allow_system then
    (EvLog DEBUG "Searching for system-installed Chromium browsers..."
       :: trace (Fallible.find_system_chromium w)
       ++ match outcome (Fallible.find_system_chromium w) with
          | Returned (Some _) => [EvLog INFO "Using system-installed browser: %s"]
          | Returned None =>
              EvLog DEBUG "No system browser found"
                :: trace (cached_tier (Fallible.host w) ad dir fr)
          | Raised _ => []
          end)%list
  else trace (cached_tier (Fallible.host w) ad dir fr).
Proof.
  unfold Fallible.get_chromium_install. destruct allow_system; [ | reflexivity ].
  rewrite trace_bind, log_run. cbn [trace fst outcome snd app]. f_equal.
  rewrite trace_bind. f_equal.
  destruct (outcome (Fallible.find_system_chromium w)) as [ [ p | ] | e ];
    [ reflexivity | | reflexivity ].
  rewrite trace_bind, log_run. reflexivity.
Qed.

(** ** Calls of the fallible system tier *)

Lemma fallible_get_chrome_paths_avoids w f :
  f EvSystem = false -> f EvHome = false -> (forall v, f (EvEnviron v) = false) ->
  avoids f (trace (Fallible.get_chrome_paths w)).
Proof.
  intros Hs Hh He.
  destruct (fallible_get_chrome_paths_cases w) as [ -> | [_ [_ ->]] ].
  - rewrite get_chrome_paths_trace.
    destruct (_ =? "Windows"); [ | destruct (_ =? "Darwin") ];
      repeat (constructor; auto).
  - repeat (constructor; auto).
Qed.

Lemma fallible_get_edge_paths_avoids w f :
  f EvSystem = false -> f EvHome = false -> (forall v, f (EvEnviron v) = false) ->
  avoids f (trace (Fallible.get_edge_paths w)).
Proof.
  intros Hs Hh He.
  destruct (fallible_get_edge_paths_cases w) as [ -> | [_ [_ ->]] ].
  - rewrite get_edge_paths_trace.
    destruct (_ =? "Windows"); [ | destruct (_ =? "Darwin") ];
      repeat (constructor; auto).
  - repeat (constructor; auto).
Qed.

Lemma fallible_find_system_chromium_avoids w f :
  outside_system_tier f -> avoids f (trace (Fallible.find_system_chromium w)).
Proof.
  intros [Hp [Hd [Hi Hw]]].
  assert (Hfirst : forall fmt paths, avoids f (trace (Fallible.first_file w fmt paths))).
  { intros fmt paths. induction paths as [ | p rest IH ]; [ constructor | ].
    cbn [Fallible.first_file]. apply avoids_bind.
    { rewrite fallible_path_exists_run. constructor; [ now apply Hp | constructor ]. }
    intros e. apply avoids_bind.
    { destruct e; [ | constructor ].
      rewrite fallible_path_is_file_run. constructor; [ now apply Hp | constructor ]. }
    intros [ | ]; [ | exact IH ]. constructor; [ apply Hi | constructor ]. }
  assert (Hc : avoids f (trace (Fallible.find_chrome w))).
  { unfold Fallible.find_chrome.
    apply avoids_bind; [ constructor; [ apply Hd | constructor ] | intros _ ].
    apply avoids_bind;
      [ apply fallible_get_chrome_paths_avoids; intros; now apply Hp | intros paths ].
    apply avoids_bind; [ apply Hfirst | intros r ].
    destruct r; [ constructor | ]. constructor; [ apply Hd | constructor ]. }
  assert (He : avoids f (trace (Fallible.find_edge w))).
  { unfold Fallible.find_edge.
    apply avoids_bind; [ constructor; [ apply Hd | constructor ] | intros _ ].
    apply avoids_bind;
      [ apply fallible_get_edge_paths_avoids; intros; now apply Hp | intros paths ].
    apply avoids_bind; [ apply Hfirst | intros r ].
    destruct r; [ constructor | ]. constructor; [ apply Hd | constructor ]. }
  unfold Fallible.find_system_chromium.
  apply avoids_bind; [ constructor; [ apply Hd | constructor ] | intros _ ].
  apply avoids_bind; [ exact Hc | intros c ].
  destruct c; [ constructor; [ apply Hi | constructor ] | ].
  apply avoids_bind; [ exact He | intros e ].
  destruct e; constructor; first [ apply Hi | apply Hw | constructor ].
Qed.

Lemma installer_events_outside_system_tier : outside_system_tier is_installer_event.
Proof. repeat split; intros; try reflexivity. now destruct e. Qed.

Lemma final_log_outside_system_tier : outside_system_tier is_final_branch_log.
Proof. repeat split; intros; try reflexivity. now destruct e. Qed.

(** ** Failure messages, with probes that fail *)

(** C2, amended.  A call of the resolver fails in one of three ways.  An
    error raised by a probe call of the system tier ([exists()],
    [is_file()], [Path.home()]) is passed on as it is.  Otherwise the error
    is a [ChromiumNotFoundError] raised by the resolver itself, and its
    message is decided by [allow_download] alone: with
    [allow_download = true] it is the error built from the installer's
    error, which it carries as its cause; with [allow_download = false] it
    is the error of the final branch, without a cause, whether the system
    tier was tried and found nothing or was not allowed either.  The two
    messages differ. *)
Theorem resolver_failure_kinds (w : Fallible.World) (allow_system ad : bool)
    (dir : option Path) (fr : bool) (e : PyException) :
  outcome (Fallible.get_chromium_install w allow_system ad dir fr) = Raised e ->
  ((allow_system = true
    /\ outcome (Fallible.find_system_chromium w) = Raised e
    /\ Fallible.probe_error w e)
   \/ (exc_class e = "ChromiumNotFoundError"
       /\ ad = true
       /\ exists c, installer (Fallible.host w) dir false fr = InstallFailed c
            /\ e = ChromiumNotFoundError msg_download_failed (Some c))
   \/ (exc_class e = "ChromiumNotFoundError"
       /\ ad = false
       /\ e = ChromiumNotFoundError msg_no_options None))
  /\ msg_download_failed <> msg_no_options.
Proof.
  intros Hr. split; [ | discriminate ].
  assert (Hcached : outcome (cached_tier (Fallible.host w) ad dir fr) = Raised e ->
    (exc_class e = "ChromiumNotFoundError"
     /\ ad = true
     /\ exists c, installer (Fallible.host w) dir false fr = InstallFailed c
          /\ e = ChromiumNotFoundError msg_download_failed (Some c))
    \/ (exc_class e = "ChromiumNotFoundError"
        /\ ad = false
        /\ e = ChromiumNotFoundError msg_no_options None)).
  { rewrite cached_tier_outcome, download_tier_run.
    destruct (if ad && negb fr then lookup_cached (Fallible.host w) dir else None);
      [ discriminate | ].
    destruct ad.
    - destruct (installer (Fallible.host w) dir false fr) as [ q | c ]; [ discriminate | ].
      intros [= <-]. left. split; [ reflexivity | ]. split; [ reflexivity | ]. now exists c.
    - intros [= <-]. right. now repeat split. }
  rewrite fallible_get_chromium_install_outcome in Hr.
  destruct allow_system; [ | right; now apply Hcached ].
  destruct (outcome (Fallible.find_system_chromium w)) as [ [ p | ] | e0 ] eqn:Es.
  - discriminate.
  - right. now apply Hcached.
  - injection Hr as ->. left. split; [ reflexivity | ]. split; [ reflexivity | ].
    exact (fallible_find_system_chromium_raises _ _ Es).
Qed.

Lemma resolver_failure_kinds_witness :
  ((true = true
    /\ outcome (Fallible.find_system_chromium (Fallible.quiet Hosts.linux_offline))
       = Raised (ChromiumNotFoundError msg_download_failed (Some Hosts.network_down))
    /\ Fallible.probe_error (Fallible.quiet Hosts.linux_offline)
         (ChromiumNotFoundError msg_download_failed (Some Hosts.network_down)))
   \/ (exc_class (ChromiumNotFoundError msg_download_failed (Some Hosts.network_down))
       = "ChromiumNotFoundError"
       /\ true = true
       /\ exists c,
            installer (Fallible.host (Fallible.quiet Hosts.linux_offline)) None false false
            = InstallFailed c
            /\ ChromiumNotFoundError msg_download_failed (Some Hosts.network_down)
               = ChromiumNotFoundError msg_download_failed (Some c))
   \/ (exc_class (ChromiumNotFoundError msg_download_failed (Some Hosts.network_down))
       = "ChromiumNotFoundError"
       /\ true = false
       /\ ChromiumNotFoundError msg_download_failed (Some Hosts.network_down)
          = ChromiumNotFoundError msg_no_options None)).
Proof.
  refine (proj1 (resolver_failure_kinds (Fallible.quiet Hosts.linux_offline) true true
                   None false _ _)).
  reflexivity.
Defined.

(** ** The final branch, with probes that fail *)

(** C10, as stated, fails: on a Linux machine where [/opt/google] may not
    be searched, a call with [allow_system = true] and
    [allow_download = true] ends in the [PermissionError] of [exists()],
    which has no cause and is not a [ChromiumNotFoundError]; no path is
    returned and the installer, which would have succeeded, is never
    called. *)
Lemma probe_error_escapes_with_download_allowed :
  outcome (Fallible.get_chromium_install Worlds.locked_opt true true None false)
  = Raised Worlds.permission_denied
  /\ exc_class Worlds.permission_denied = "PermissionError"
  /\ exc_cause Worlds.permission_denied = None
  /\ installer (Fallible.host Worlds.locked_opt) None false false
     = Installed Hosts.portable
  /\ count is_installer_event
       (trace (Fallible.get_chromium_install Worlds.locked_opt true true None false)) = 0
  /\ In (EvExists (Hosts.posix "/opt/google/chrome/chrome"))
       (trace (Fallible.get_chromium_install Worlds.locked_opt true true None false)).
Proof. repeat split. vm_compute. tauto. Qed.

(** C10, amended.  With [allow_download = true], a call whose system tier is
    not allowed, or completes without an error of a probe call (as it does
    when every probe call answers), either returns a path or raises the
    [ChromiumNotFoundError] built from the installer's error and carrying
    it as its cause.  The final branch, the one that logs that installation
    is disallowed and raises without a cause, is reached only when
    [allow_download = false].  An error of a probe call of the system tier
    comes out of the call unchanged, whatever [allow_download] is, before
    the installer is asked anything. *)
Theorem download_allowed_outcomes_past_probes (w : Fallible.World)
    (allow_system : bool) (dir : option Path) (fr : bool) :
  (allow_system = false
   \/ (exists r, outcome (Fallible.find_system_chromium w) = Returned r) ->
   (exists p,
      outcome (Fallible.get_chromium_install w allow_system true dir fr) = Returned p)
   \/ (exists e,
         installer (Fallible.host w) dir false fr = InstallFailed e
         /\ outcome (Fallible.get_chromium_install w allow_system true dir fr)
            = Raised (ChromiumNotFoundError msg_download_failed (Some e))))
  /\ (Fallible.answers w ->
      exists r, outcome (Fallible.find_system_chromium w) = Returned r)
  /\ (forall ad,
        In (EvLog ERROR "No Chromium browser found and installation is disallowed")
           (trace (Fallible.get_chromium_install w allow_system ad dir fr)) ->
        ad = false)
  /\ (forall ad e,
        outcome (Fallible.find_system_chromium w) = Raised e ->
        outcome (Fallible.get_chromium_install w true ad dir fr) = Raised e
        /\ avoids is_installer_event
             (trace (Fallible.get_chromium_install w true ad dir fr))).
Proof.
  assert (Hcached :
    (exists p, outcome (cached_tier (Fallible.host w) true dir fr) = Returned p)
    \/ (exists e,
          installer (Fallible.host w) dir false fr = InstallFailed e
          /\ outcome (cached_tier (Fallible.host w) true dir fr)
             = Raised (ChromiumNotFoundError msg_download_failed (Some e)))).
  { rewrite cached_tier_outcome, download_tier_run.
    destruct (if true && negb fr then lookup_cached (Fallible.host w) dir else None)
      as [ q | ]; [ left; now exists q | ].
    destruct (installer (Fallible.host w) dir false fr) as [ q | e ].
    - left. now exists q.
    - right. now exists e. }
  split; [ | split; [ | split ] ].
  - intros Hpast. rewrite fallible_get_chromium_install_outcome.
    destruct allow_system; [ | exact Hcached ].
    destruct Hpast as [ Hf | [r Hr] ]; [ discriminate | ].
    rewrite Hr. destruct r as [ p | ]; [ left; now exists p | exact Hcached ].
  - intros Ha. rewrite (fallible_find_system_chromium_answers w Ha),
      find_system_chromium_outcome. now eexists.
  - intros ad Hin. destruct ad; [ exfalso | reflexivity ].
    assert (Hc : avoids is_final_branch_log
                   (trace (cached_tier (Fallible.host w) true dir fr))).
    { rewrite cached_tier_run.
      destruct (true && negb fr); [ destruct (lookup_cached (Fallible.host w) dir) | ];
        rewrite ?download_tier_run; cbn [trace fst];
        try (destruct (installer (Fallible.host w) dir false fr));
        repeat constructor. }
    assert (Ht : avoids is_final_branch_log
                   (trace (Fallible.get_chromium_install w allow_system true dir fr))).
    { rewrite fallible_get_chromium_install_trace.
      destruct allow_system; [ | exact Hc ].
      constructor; [ reflexivity | ].
      apply avoids_app;
        [ exact (fallible_find_system_chromium_avoids w _ final_log_outside_system_tier) | ].
      destruct (outcome (Fallible.find_system_chromium w)) as [ [ p | ] | e ];
        [ repeat constructor | | constructor ].
      constructor; [ reflexivity | exact Hc ]. }
    exact (avoids_not_in _ _
             (EvLog ERROR "No Chromium browser found and installation is disallowed")
             Ht eq_refl Hin).
  - intros ad e He. split.
    + now rewrite fallible_get_chromium_install_outcome, He.
    + rewrite fallible_get_chromium_install_trace, He.
      constructor; [ reflexivity | ].
      apply avoids_app; [ | constructor ].
      exact (fallible_find_system_chromium_avoids w _ installer_events_outside_system_tier).
Qed.

Lemma download_allowed_outcomes_past_probes_witness :
  ((exists p,
      outcome (Fallible.get_chromium_install (Fallible.quiet Hosts.linux_offline)
                 true true None false) = Returned p)
   \/ (exists e,
         installer (Fallible.host (Fallible.quiet Hosts.linux_offline)) None false false
         = InstallFailed e
         /\ outcome (Fallible.get_chromium_install (Fallible.quiet Hosts.linux_offline)
                       true true None false)
            = Raised (ChromiumNotFoundError msg_download_failed (Some e))))
  /\ false = false
  /\ outcome (Fallible.get_chromium_install Worlds.locked_opt true false None false)
     = Raised Worlds.permission_denied.
Proof.
  split; [ | split ].
  - refine (proj1 (download_allowed_outcomes_past_probes
                     (Fallible.quiet Hosts.linux_offline) true None false) _).
    right. exists None. reflexivity.
  - refine (proj1 (proj2 (proj2 (download_allowed_outcomes_past_probes
                     (Fallible.quiet Hosts.linux_bare) true None false))) false _).
    vm_compute. tauto.
  - refine (proj1 (proj2 (proj2 (proj2 (download_allowed_outcomes_past_probes
                     Worlds.locked_opt true None false))) false
                     Worlds.permission_denied _)).
    reflexivity.
Defined.

(** ** Absolute candidates, with probes that fail *)





(** ** The resolver as a whole, with probes that fail *)

(** X13.  When the system tier is not allowed, or every probe call answers,
    the outcome of [get_chromium_install], failure included, is the one the
    three-tier rule gives: system browser (Chrome before Edge) if allowed
    and found, else cached install if downloading is allowed, no reinstall
    is forced and the lookup yields one, else the installer's result if
    downloading is allowed, its error wrapped, else the error of the final
    branch. *)
Theorem resolution_when_probes_answer (w : Fallible.World) (allow_system ad : bool)
    (dir : option Path) (fr : bool) :
  allow_system = false \/ Fallible.answers w ->
  outcome (Fallible.get_chromium_install w allow_system ad dir fr)
  = resolution (Fallible.host w) allow_system ad dir fr.
Proof.
  intros H. rewrite (fallible_get_chromium_install_answers _ _ _ _ _ H).
  apply outcome_is_resolution.
Qed.

Lemma resolution_when_probes_answer_witness :
  outcome (Fallible.get_chromium_install Worlds.locked_opt false true None false)
  = resolution (Fallible.host Worlds.locked_opt) false true None false.
Proof.
  refine (resolution_when_probes_answer Worlds.locked_opt false true None false _).
  left. reflexivity.
Defined.

(** X14.  How the two permissions interact.  A path returned without
    permission to download is returned as well with it, for any directory
    and reinstall flag.  A failure with the system tier allowed is an error
    of one of its probe calls, or else the same failure as with the system
    tier not allowed.  A success with the system tier not allowed stays a
    success (possibly with another path) when it is allowed, unless a probe
    call of the system tier raises, and then that error comes out. *)
Theorem permissions_interact (w : Fallible.World) (ad : bool) (dir : option Path)
    (fr : bool) :
  (forall allow_system p dir' fr',
     outcome (Fallible.get_chromium_install w allow_system false dir fr) = Returned p ->
     outcome (Fallible.get_chromium_install w allow_system true dir' fr') = Returned p)
  /\ (forall e,
        outcome (Fallible.get_chromium_install w true ad dir fr) = Raised e ->
        outcome (Fallible.find_system_chromium w) = Raised e
        \/ outcome (Fallible.get_chromium_install w false ad dir fr) = Raised e)
  /\ (forall p,
        outcome (Fallible.get_chromium_install w false ad dir fr) = Returned p ->
        (exists q, outcome (Fallible.get_chromium_install w true ad dir fr) = Returned q)
        \/ (exists e,
              outcome (Fallible.find_system_chromium w) = Raised e
              /\ outcome (Fallible.get_chromium_install w true ad dir fr) = Raised e)).
Proof.
  split; [ | split ].
  - intros allow_system p dir' fr'. rewrite !fallible_get_chromium_install_outcome.
    assert (Hno : forall d f, outcome (cached_tier (Fallible.host w) false d f)
                              <> Returned p) by (intros d f; discriminate).
    destruct allow_system; [ | intros H; now destruct (Hno _ _ H) ].
    destruct (outcome (Fallible.find_system_chromium w)) as [ [ q | ] | e ];
      [ trivial | intros H; now destruct (Hno _ _ H) | discriminate ].
  - intros e. rewrite !fallible_get_chromium_install_outcome. cbv iota.
    destruct (outcome (Fallible.find_system_chromium w)) as [ [ q | ] | e0 ].
    + discriminate.
    + intros H. right. exact H.
    + intros [= ->]. left. reflexivity.
  - intros p. rewrite !fallible_get_chromium_install_outcome. cbv iota.
    destruct (outcome (Fallible.find_system_chromium w)) as [ [ q | ] | e0 ].
    + intros _. left. now exists q.
    + intros H. left. now exists p.
    + intros _. right. now exists e0.
Qed.

Lemma permissions_interact_witness :
  outcome (Fallible.get_chromium_install (Fallible.quiet Hosts.linux_both) true true
             None true)
  = Returned (Hosts.posix "/usr/bin/google-chrome-stable")
  /\ (outcome (Fallible.find_system_chromium Worlds.locked_opt)
      = Raised Worlds.permission_denied
      \/ outcome (Fallible.get_chromium_install Worlds.locked_opt false true None false)
         = Raised Worlds.permission_denied)
  /\ ((exists q,
         outcome (Fallible.get_chromium_install Worlds.locked_opt true true None false)
         = Returned q)
      \/ (exists e,
            outcome (Fallible.find_system_chromium Worlds.locked_opt) = Raised e
            /\ outcome (Fallible.get_chromium_install Worlds.locked_opt true true None
                          false) = Raised e)).
Proof.
  split; [ | split ].
  - refine (proj1 (permissions_interact (Fallible.quiet Hosts.linux_both) false None false)
              true _ None true _).
    reflexivity.
  - refine (proj1 (proj2 (permissions_interact Worlds.locked_opt true None false))
              Worlds.permission_denied _).
    reflexivity.
  - refine (proj2 (proj2 (permissions_interact Worlds.locked_opt true None false))
              Hosts.portable _).
    reflexivity.
Defined.
